(** * cursor_chat_exporter: a shallow embedding of [cursor_export.py]

    The development follows the layout of the Python module:

    - the pieces of the Python runtime the module calls: exceptions, strings,
      the two regular expressions, [datetime] at the resolution of one
      second, [pathlib];
    - the data model of the JSON documents the module reads and writes;
    - the functions of [cursor_export.py], under their own names, and the
      loader;
    - the properties of these functions.

    Conventions.

    - A Python [str] is a [string]; each [ascii] stands for one character
      (code points 0 to 255).
    - A [dict] read from JSON is a record.  A key that may be missing is an
      [option] field: [d.get(k)] is the field, [d.get(k, default)] is [get]
      of it, and the truth test [if d.get(k):] is [truthy_str],
      [truthy_list] or [truthy_timestamp] of it.  The records give every key
      the type the exporter expects of it; a time stamp is a whole number or
      a text (JSON floats are not modelled).
    - A [for] loop is [for_in] over its list, threading what the body
      updates; [markdown_content += ...] is an append to the threaded text.
    - [datetime.fromisoformat], the local time zone, [markdown.markdown] and
      [json.dumps] belong to the interpreter and its libraries: they are the
      fields of the class [Runtime], and every general statement holds for
      any instance.  The closed examples run on the instance [utc_runtime].
    - The file system is a finite map from paths to file contents together
      with a set of directories; writing and creating directories always
      succeed.  Console output ([print]) is left out. *)

From stdpp Require Import gmap strings list.
From Stdlib Require Import ZArith Ascii DecimalString.

Open Scope Z_scope.

(** ** Exceptions *)

Inductive exn : Type := ValueError | OverflowError | AttributeError.

Inductive outcome (A : Type) : Type :=
  | Returns (a : A)
  | Raises (e : exn).
Arguments Returns {A} a.
Arguments Raises {A} e.

#[global] Instance outcome_ret : MRet outcome := λ A a, Returns a.

#[global] Instance outcome_bind : MBind outcome := λ A B k x,
  match x with
  | Returns a => k a
  | Raises e => Raises e
  end.


(** [try: return body / except: return handler], when the handler is a
    value: the function returns in both cases, and this is what it returns. *)
Definition try_except {A} (body : outcome A) (handler : A) : A :=
  match body with
  | Returns a => a
  | Raises _ => handler
  end.

(** ** Python strings *)

Module PyStr.

Definition dquote : ascii := ascii_of_nat 34.
Definition nl : string := String (ascii_of_nat 10) "".

Definition len (s : string) : Z := Z.of_nat (String.length s).

(** Truth value of a string: non-empty. *)
Definition nonempty (s : string) : bool :=
  match s with
  | "" => false
  | String _ _ => true
  end.

Definition startswith (s p : string) : bool := String.prefix p s.

Fixpoint take (n : nat) (s : string) : string :=
  match n, s with
  | S k, String c r => String c (take k r)
  | _, _ => ""
  end.

(** [s[:k]]: a negative bound counts from the end. *)
Definition slice_to (k : Z) (s : string) : string :=
  if 0 <=? k then take (Z.to_nat k) s else take (Z.to_nat (len s + k)) s.

(** [s.replace(old, new)] for a non-empty [old]: the occurrences are taken
    from the left and do not overlap.  [skip] counts the characters of the
    occurrence just replaced that are still to be dropped. *)
Fixpoint replace_go (old new : string) (skip : nat) (s : string) : string :=
  match s with
  | "" => ""
  | String c r =>
      match skip with
      | S k => replace_go old new k r
      | O =>
          if String.prefix old s
          then new +:+ replace_go old new (String.length old - 1) r
          else String c (replace_go old new 0 r)
      end
  end.

Definition replace (old new s : string) : string := replace_go old new 0 s.

(** [s.count(sub)] for a non-empty [sub], and [sub in s]. *)
Fixpoint count_go (sub : string) (skip : nat) (s : string) : nat :=
  match s with
  | "" => 0
  | String c r =>
      match skip with
      | S k => count_go sub k r
      | O =>
          if String.prefix sub s
          then S (count_go sub (String.length sub - 1) r)
          else count_go sub 0 r
      end
  end.

Definition count (sub s : string) : nat := count_go sub 0 s.


(** [sep.join(parts)] *)
Definition join (sep : string) (parts : list string) : string :=
  String.concat sep parts.

(** [str(n)] for an [int] *)
Definition of_int (n : Z) : string := NilZero.string_of_int (Z.to_int n).

(** A number written on at least [width] digits, padded with zeros (the
    [%Y], [%m], [%d], [%H], [%M] and [%S] fields of [strftime]). *)
Fixpoint zeros (n : nat) : string :=
  match n with
  | O => ""
  | S k => String "0" (zeros k)
  end.

Definition zfill (width : nat) (n : Z) : string :=
  let s := of_int n in zeros (width - String.length s) +:+ s.


(** Characters of a string, tested one by one. *)
Fixpoint all (p : ascii → bool) (s : string) : bool :=
  match s with
  | "" => true
  | String c r => p c && all p r
  end.

Fixpoint map (f : ascii → ascii) (s : string) : string :=
  match s with
  | "" => ""
  | String c r => String (f c) (map f r)
  end.

(** [s.split(sep)] for a one-character separator. *)
Fixpoint split_go (sep : ascii) (cur : string) (s : string) : list string :=
  match s with
  | "" => [String.rev cur]
  | String c r =>
      if Ascii.eqb c sep
      then String.rev cur :: split_go sep "" r
      else split_go sep (String c cur) r
  end.

Definition split (sep : ascii) (s : string) : list string := split_go sep "" s.

End PyStr.

(** ** Regular expressions of [get_safe_filename] *)

Module PyRe.

(** The character class of the first pattern: less-than, greater-than,
    colon, double quote, slash, backslash, bar, question mark, star. *)
Definition invalid_char (c : ascii) : bool :=
  match nat_of_ascii c with
  | 60%nat | 62%nat | 58%nat | 34%nat | 47%nat | 92%nat | 124%nat | 63%nat | 42%nat => true
  | _ => false
  end.

(** The class [\s] on [str] patterns, for code points below 256. *)
Definition is_space (c : ascii) : bool :=
  let n := nat_of_ascii c in
  ((9 <=? n) && (n <=? 13) || (28 <=? n) && (n <=? 32)
   || (n =? 133) || (n =? 160))%nat.

(** [re.sub] of that class by a dash. *)
Definition sub_invalid (s : string) : string :=
  PyStr.map (λ c, if invalid_char c then "-"%char else c) s.

(** [re.sub] of every run of white space by one dash: [in_run] says that
    the previous character belongs to the run being replaced. *)
Fixpoint sub_spaces_go (in_run : bool) (s : string) : string :=
  match s with
  | "" => ""
  | String c r =>
      if is_space c
      then (if in_run then sub_spaces_go true r else String "-" (sub_spaces_go true r))
      else String c (sub_spaces_go false r)
  end.

Definition sub_spaces (s : string) : string := sub_spaces_go false s.

End PyRe.

(** ** [datetime], at the resolution of one second *)

Record datetime : Type := mk_datetime {
  year : Z; month : Z; day : Z; hour : Z; minute : Z; second : Z
}.

Module PyDatetime.

(** Gregorian date of a day counted from 1970-01-01. *)
Definition civil_from_days (days : Z) : Z * Z * Z :=
  let z := days + 719468 in
  let era := z / 146097 in
  let doe := z - era * 146097 in
  let yoe := (doe - doe / 1460 + doe / 36524 - doe / 146096) / 365 in
  let doy := doe - (365 * yoe + yoe / 4 - yoe / 100) in
  let mp := (5 * doy + 2) / 153 in
  let d := doy - (153 * mp + 2) / 5 + 1 in
  let m := if mp <? 10 then mp + 3 else mp - 9 in
  let y := yoe + era * 400 + (if m <=? 2 then 1 else 0) in
  (y, m, d).

(** [datetime.fromtimestamp(t)] for a whole number [t] of seconds, in a zone
    whose offset from UTC at instant [t] is [offset t] seconds.  Years
    outside 1..9999 are refused; so is an instant whose local date one day
    earlier, which the conversion probes for a repeated hour, is before
    year 1. *)
Definition fromtimestamp (offset : Z → Z) (t : Z) : outcome datetime :=
  let lt := t + offset t in
  let probe := t - 86400 + offset (t - 86400) in
  let '(y, m, d) := civil_from_days (lt / 86400) in
  let '(probe_y, _, _) := civil_from_days (probe / 86400) in
  let sod := lt mod 86400 in
  if (1 <=? probe_y) && (1 <=? y) && (y <=? 9999)
  then Returns (mk_datetime y m d (sod / 3600) (sod mod 3600 / 60) (sod mod 60))
  else Raises ValueError.

(** [d.strftime("%Y-%m-%d %H:%M:%S")].  The year is written on four digits,
    as the documentation of [%Y] has it (the C library of some platforms
    leaves a year below 1000 unpadded). *)
Definition strftime (d : datetime) : string :=
  PyStr.zfill 4 (year d) +:+ "-" +:+ PyStr.zfill 2 (month d) +:+ "-" +:+
  PyStr.zfill 2 (day d) +:+ " " +:+ PyStr.zfill 2 (hour d) +:+ ":" +:+
  PyStr.zfill 2 (minute d) +:+ ":" +:+ PyStr.zfill 2 (second d).

End PyDatetime.

(** A parser for the texts [datetime.isoformat] writes, which every supported
    interpreter reads back: [YYYY-MM-DD], then optionally one separator
    character, [HH[:MM[:SS[.fff[fff]]]]] and an offset [+HH:MM] or [-HH:MM].
    It instantiates the runtime for the closed examples below; the general
    statements hold for any parser. *)
Module IsoFormat.

Definition digit (c : ascii) : option Z :=
  let n := nat_of_ascii c in
  if ((48 <=? n) && (n <=? 57))%nat then Some (Z.of_nat n - 48) else None.

Fixpoint digits (n : nat) (acc : Z) (s : string) : option (Z * string) :=
  match n, s with
  | O, _ => Some (acc, s)
  | S k, String c r => d ← digit c; digits k (10 * acc + d) r
  | S _, "" => None
  end.

Definition expect (c : ascii) (s : string) : option string :=
  match s with
  | String c' r => if Ascii.eqb c c' then Some r else None
  | "" => None
  end.

Definition is_leap (y : Z) : bool :=
  (y mod 4 =? 0) && (negb (y mod 100 =? 0) || (y mod 400 =? 0)).

Definition days_in_month (y m : Z) : Z :=
  if m =? 2 then (if is_leap y then 29 else 28)
  else if (m =? 4) || (m =? 6) || (m =? 9) || (m =? 11) then 30 else 31.

Definition parse_date (s : string) : option (Z * Z * Z * string) :=
  '(y, s) ← digits 4 0 s; s ← expect "-" s;
  '(m, s) ← digits 2 0 s; s ← expect "-" s;
  '(d, s) ← digits 2 0 s;
  if (1 <=? y) && (1 <=? m) && (m <=? 12) && (1 <=? d) && (d <=? days_in_month y m)
  then Some (y, m, d, s) else None.

(** [.fff] or [.ffffff], or nothing. *)
Definition parse_fraction (s : string) : option string :=
  match s with
  | String "." r =>
      '(_, r3) ← digits 3 0 r;
      match digits 3 0 r3 with
      | Some (_, r6) => Some r6
      | None => Some r3
      end
  | _ => Some s
  end.

(** [HH[:MM[:SS[.fff[fff]]]]] *)
Definition parse_time (s : string) : option (Z * Z * Z * string) :=
  '(h, s) ← digits 2 0 s;
  '(mi, se, s) ←
    match s with
    | String ":" r =>
        '(mi, r) ← digits 2 0 r;
        match r with
        | String ":" r' =>
            '(se, r') ← digits 2 0 r'; r' ← parse_fraction r'; Some (mi, se, r')
        | _ => Some (mi, 0, r)
        end
    | _ => Some (0, 0, s)
    end;
  if (h <=? 23) && (mi <=? 59) && (se <=? 59) then Some (h, mi, se, s) else None.

(** Nothing, or a sign and [HH:MM], up to the end of the text. *)
Definition parse_offset (s : string) : option unit :=
  match s with
  | "" => Some ()
  | String c r =>
      if Ascii.eqb c "+" || Ascii.eqb c "-" then
        '(h, r) ← digits 2 0 r; r ← expect ":" r; '(mi, r) ← digits 2 0 r;
        if (h <=? 23) && (mi <=? 59) && negb (PyStr.nonempty r) then Some () else None
      else None
  end.

Definition parse (s : string) : option datetime :=
  '(y, m, d, s) ← parse_date s;
  match s with
  | "" => Some (mk_datetime y m d 0 0 0)
  | String _ r =>
      '(h, mi, se, r) ← parse_time r; _ ← parse_offset r;
      Some (mk_datetime y m d h mi se)
  end.

Definition fromisoformat (s : string) : outcome datetime :=
  match parse s with
  | Some d => Returns d
  | None => Raises ValueError
  end.

End IsoFormat.

(** ** [pathlib] *)

(** A path is its anchor (absolute or not) and its parts. *)
Abbreviation path := (bool * list string)%type.

Module PyPath.

Definition keep_part (p : string) : bool :=
  negb (String.eqb p "") && negb (String.eqb p ".").

Definition parts_of (s : string) : list string :=
  List.filter keep_part (PyStr.split "/" s).

(** [Path(s)] *)
Definition Path (s : string) : path := (PyStr.startswith s "/", parts_of s).

(** [p / s]: an absolute right operand replaces the left one. *)
Definition joinpath (p : path) (s : string) : path :=
  if PyStr.startswith s "/" then Path s else (p.1, p.2 ++ parts_of s).

(** [p.name] *)
Definition name (p : path) : string := List.last p.2 "".

(** [p.parent] *)
Definition parent (p : path) : path := (p.1, removelast p.2).

(** [p] and the directories above it, as [mkdir(parents=True)] makes them. *)
Definition with_parents (p : path) : list path :=
  (λ k, (p.1, firstn k p.2)) <$> seq 1 (length p.2).

End PyPath.

Infix "//" := PyPath.joinpath (at level 40, left associativity).

(** ** Data model *)

(** The records below follow the keys the module reads.  A key that several
    records share carries the initials of its record ([cs_sessionId],
    [es_sessionId]; [wd_] for the summary the exporter builds).

    A time stamp as JSON carries it: a number of seconds or milliseconds, or
    a text. *)
Inductive timestamp : Type :=
  | TsInt (n : Z)
  | TsStr (s : string).

Record WorkspaceInfo : Type := {
  wi_id : option string;
  wi_folder : option string;
  wi_lastModified : option timestamp
}.

Record ResponseItem : Type := { value : option string }.

Record Message : Type := { text : option string }.

Record Request : Type := {
  message : option Message;
  response : option (list ResponseItem);
  rq_timestamp : option timestamp
}.

Record ChatSession : Type := {
  cs_sessionId : option string;
  customTitle : option string;
  creationDate : option timestamp;
  requests : option (list Request)
}.

Record Change : Type := { txt : option string }.

Record PostEdit : Type := {
  pe_resource : option string;
  originalToCurrentEdit : option (list Change)
}.

Record FileEntry : Type := { fe_resource : option string }.

Record Stop : Type := { entries : option (list FileEntry) }.

Record EditEntry : Type := {
  stops : option (list Stop);
  postEdit : option (list PostEdit)
}.

Record EditingSession : Type := {
  es_sessionId : option string;
  version : option string;
  linearHistory : option (list EditEntry)
}.

Record Workspace : Type := {
  workspaceInfo : WorkspaceInfo;
  chatSessions : option (list ChatSession);
  editingSessions : option (list EditingSession)
}.

(** The summary written to [json/<workspace>.json]. *)
Record ConversationEntry : Type := {
  role : string;
  ce_text : string;
  ce_timestamp : timestamp
}.

Record ChatRecord : Type := {
  cr_title : string;
  cr_sessionId : string;
  cr_timestamp : timestamp;
  conversation : list ConversationEntry
}.

Record EditingRecord : Type := {
  er_title : string;
  er_sessionId : string;
  er_version : string;
  editCount : nat
}.

Record WorkspaceData : Type := {
  wd_workspace : string;
  wd_workspaceInfo : WorkspaceInfo;
  chats : list ChatRecord;
  wd_editingSessions : list EditingRecord
}.

(** Truth values, as [if x:] tests them. *)
Definition truthy_str (o : option string) : bool :=
  match o with
  | Some s => PyStr.nonempty s
  | None => false
  end.

Definition truthy_list {A} (o : option (list A)) : bool :=
  match o with
  | Some (_ :: _) => true
  | _ => false
  end.

Definition truthy_timestamp (o : option timestamp) : bool :=
  match o with
  | Some (TsInt n) => negb (n =? 0)
  | Some (TsStr s) => PyStr.nonempty s
  | None => false
  end.

(** [d.get(k, default)] *)
Definition get {A} (o : option A) (default : A) : A := from_option id default o.

(** [for x in xs: body], threading what the body updates. *)
Definition for_in {A S} (xs : list A) (body : A → S → S) (s : S) : S :=
  fold_left (λ s x, body x s) xs s.
Arguments for_in : simpl never.

(** ** The runtime the module runs on *)

Class Runtime : Type := {
  (** offset of local time from UTC, in seconds, at an instant *)
  utcoffset : Z → Z;
  (** [datetime.fromisoformat] *)
  fromisoformat : string → outcome datetime;
  (** [markdown.markdown] with the extensions the module selects *)
  markdown_markdown : string → string;
  (** [json.dumps(_, indent=2)] *)
  json_dumps : WorkspaceData → string
}.

(** ** The file system *)

Record world : Type := {
  files : gmap path string;
  dirs : gset path
}.

Definition empty_world : world := {| files := ∅; dirs := ∅ |}.

(** [p.mkdir(parents=True, exist_ok=True)] *)
Definition mkdir (p : path) (w : world) : world :=
  {| files := files w; dirs := dirs w ∪ list_to_set (PyPath.with_parents p) |}.

(** [p.write_text(content)] *)
Definition write_text (p : path) (content : string) (w : world) : world :=
  {| files := <[p := content]> (files w); dirs := dirs w |}.

(** ** [cursor_export.py] *)

Section CursorExport.

Context `{Runtime}.

Import PyStr.

(** [str(date_str)] *)
Definition str (date_str : timestamp) : string :=
  match date_str with
  | TsInt n => of_int n
  | TsStr s => s
  end.

(** The [try] block of [format_datetime]: first the two ways to a [date].
    The quotient [date_str / 1000] is a float; the format shows whole seconds
    only, so its integer part is kept. *)
Definition parse_datetime (date_str : timestamp) : outcome datetime :=
  match date_str with
  | TsInt n =>
      PyDatetime.fromtimestamp utcoffset
        (if 10000000000 <? n then n / 1000 else n)
  | TsStr s => fromisoformat (replace "Z" "+00:00" s)
  end.

Definition format_datetime_try (date_str : timestamp) : outcome string :=
  date ← parse_datetime date_str;
  mret (PyDatetime.strftime date).

(** The value [format_datetime] returns: that of the [try] block, or of
    the handler of the bare [except]. *)
Definition format_datetime (date_str : timestamp) : string :=
  try_except (format_datetime_try date_str) (str date_str).


Definition MAX_FILENAME_LENGTH : Z := 160.

Definition get_safe_filename (timestamp : timestamp) (title : string) : string :=
  let date_str := replace ":" "-" (replace " " "-" (format_datetime timestamp)) in
  let safe_title := PyRe.sub_invalid title in
  let safe_title := PyRe.sub_spaces safe_title in
  let combined_name := date_str +:+ "--" +:+ safe_title in
  if MAX_FILENAME_LENGTH <? len combined_name then
    let truncated_title :=
      slice_to (MAX_FILENAME_LENGTH - len date_str - 4) safe_title in
    date_str +:+ "--" +:+ truncated_title
  else combined_name.

(** The header both converters start with. *)
Definition workspace_header (workspace_info : WorkspaceInfo) : string :=
  if truthy_str (wi_folder workspace_info) then
    let clean_path := replace "file://" "" (get (wi_folder workspace_info) "") in
    "# Workspace: " +:+ clean_path +:+ nl +:+ nl
  else
    "# Workspace: " +:+ get (wi_id workspace_info) "Unknown" +:+ nl +:+ nl.

(** [session.get('customTitle') or f"Chat Session {...}"] *)
Definition chat_title (session : ChatSession) : string :=
  if truthy_str (customTitle session) then get (customTitle session) ""
  else "Chat Session " +:+ get (cs_sessionId session) "Unknown".

(** [request.get('message', {}).get('text')] *)
Definition message_text (request : Request) : option string :=
  m ← message request; text m.

(** The inner loop over [request['response']]. *)
Definition collect_response_parts (items : list ResponseItem) : list string :=
  for_in items
    (λ response_item response_parts,
       if truthy_str (value response_item)
       then response_parts ++ [get (value response_item) ""]
       else response_parts)
    [].

(** Body of the loop over [session_data['requests']]. *)
Definition markdown_of_request (request : Request) (markdown_content : string) : string :=
  let markdown_content :=
    if truthy_str (message_text request) then
      let user_text := get (message_text request) "" in
      markdown_content +:+ "**User**:" +:+ nl +:+ nl +:+ user_text +:+ nl +:+ nl
    else markdown_content in
  let markdown_content :=
    if truthy_list (response request) then
      let response_parts := collect_response_parts (get (response request) []) in
      if bool_decide (response_parts ≠ []) then
        let ai_response := join nl response_parts in
        markdown_content +:+ "**Cursor**:" +:+ nl +:+ nl +:+ ai_response +:+ nl +:+ nl
      else markdown_content
    else markdown_content in
  markdown_content +:+ "---" +:+ nl +:+ nl.

Definition convert_cursor_session_to_markdown
    (session_data : ChatSession) (workspace_info : WorkspaceInfo) : string :=
  let markdown_content := "" in
  let markdown_content := markdown_content +:+ workspace_header workspace_info in
  let markdown_content :=
    if truthy_timestamp (creationDate session_data) then
      markdown_content +:+ "Created: "
        +:+ format_datetime (get (creationDate session_data) (TsStr "")) +:+ nl +:+ nl
    else markdown_content in
  let title := chat_title session_data in
  let markdown_content := markdown_content +:+ "## " +:+ title +:+ nl +:+ nl in
  if truthy_list (requests session_data) then
    for_in (get (requests session_data) []) markdown_of_request markdown_content
  else markdown_content.

(** The lines of one [postEdit] element: the loop over the first five
    entries of [originalToCurrentEdit]. *)
Definition markdown_of_change (change : Change) (markdown_content : string) : string :=
  if truthy_str (txt change) then
    markdown_content +:+ "    - Added: `"
      +:+ slice_to 100 (get (txt change) "") +:+ "...`" +:+ nl
  else markdown_content.

Definition markdown_of_post_edit (edit : PostEdit) (markdown_content : string) : string :=
  let resource := get (pe_resource edit) "" in
  if startswith resource "file://" then
    let file_path := replace "file://" "" resource in
    let markdown_content :=
      markdown_content +:+ "- Modified: `" +:+ file_path +:+ "`" +:+ nl in
    if truthy_list (originalToCurrentEdit edit) then
      let markdown_content := markdown_content +:+ "  - Edits:" +:+ nl in
      for_in (firstn 5 (get (originalToCurrentEdit edit) []))
        markdown_of_change markdown_content
    else markdown_content
  else markdown_content.

Definition markdown_of_file_entry (file_entry : FileEntry) (markdown_content : string) : string :=
  let resource := get (fe_resource file_entry) "" in
  if startswith resource "file://" then
    let file_path := replace "file://" "" resource in
    markdown_content +:+ "**Modified File**: `" +:+ file_path +:+ "`" +:+ nl +:+ nl
  else markdown_content.

Definition markdown_of_stop (stop : Stop) (markdown_content : string) : string :=
  if truthy_list (entries stop) then
    for_in (get (entries stop) []) markdown_of_file_entry markdown_content
  else markdown_content.

(** Body of the loop over [enumerate(session_data['linearHistory'])]. *)
Definition markdown_of_edit_entry (ie : nat * EditEntry) (markdown_content : string) : string :=
  let '(i, entry) := ie in
  let markdown_content :=
    markdown_content +:+ "### Edit " +:+ of_int (Z.of_nat i + 1) +:+ nl +:+ nl in
  let markdown_content :=
    if truthy_list (stops entry) then
      for_in (get (stops entry) []) markdown_of_stop markdown_content
    else markdown_content in
  let markdown_content :=
    if truthy_list (postEdit entry) then
      let markdown_content := markdown_content +:+ "**Changes Made**:" +:+ nl +:+ nl in
      let markdown_content :=
        for_in (get (postEdit entry) []) markdown_of_post_edit markdown_content in
      markdown_content +:+ nl
    else markdown_content in
  markdown_content +:+ "---" +:+ nl +:+ nl.

Definition convert_cursor_editing_session_to_markdown
    (session_data : EditingSession) (workspace_info : WorkspaceInfo) : string :=
  let markdown_content := "" in
  let markdown_content := markdown_content +:+ workspace_header workspace_info in
  let session_id := get (es_sessionId session_data) "Unknown" in
  let markdown_content :=
    markdown_content +:+ "## Chat Editing Session: " +:+ session_id +:+ nl +:+ nl in
  if truthy_list (linearHistory session_data) then
    for_in (imap pair (get (linearHistory session_data) []))
      markdown_of_edit_entry markdown_content
  else markdown_content.

Definition convert_to_markdown := convert_cursor_session_to_markdown.

End CursorExport.

Section Exporter.

Context `{Runtime}.

Import PyStr.

Definition dq : string := String dquote "".

(** The style sheet [convert_to_html] embeds. *)
Definition css_content : string := "
        .markdown-body {
            box-sizing: border-box;
            min-width: 200px;
            max-width: 980px;
            margin: 0 auto;
            padding: 45px;
            font-family: -apple-system, BlinkMacSystemFont, 'Segoe UI', Roboto, sans-serif;
            line-height: 1.6;
            color: #24292e;
            background-color: #fff;
        }

        .markdown-body h1, .markdown-body h2, .markdown-body h3 {
            border-bottom: 1px solid #eaecef;
            padding-bottom: 0.3em;
        }

        .markdown-body pre {
            background-color: #f6f8fa;
            border-radius: 3px;
            padding: 16px;
            overflow: auto;
        }

        .markdown-body code {
            background-color: rgba(27,31,35,0.05);
            border-radius: 3px;
            padding: 0.2em 0.4em;
            font-size: 85%;
        }

        .markdown-body ul, .markdown-body ol {
            margin-top: 0.5em !important;
            margin-bottom: 0.5em !important;
            padding-left: 2em !important;
        }

        .markdown-body ul {
            list-style-type: disc !important;
        }

        .markdown-body ol {
            list-style-type: decimal !important;
        }

        @media (max-width: 767px) {
            .markdown-body {
                padding: 15px;
            }
        }
    ".

Definition convert_to_html (markdown_content : string) : string :=
  let html_content := markdown_markdown markdown_content in
  "<!DOCTYPE html>" +:+ nl +:+
  "<html lang=" +:+ dq +:+ "en" +:+ dq +:+ ">" +:+ nl +:+
  "<head>" +:+ nl +:+
  "    <meta charset=" +:+ dq +:+ "UTF-8" +:+ dq +:+ ">" +:+ nl +:+
  "    <meta name=" +:+ dq +:+ "viewport" +:+ dq +:+ " content=" +:+ dq +:+
    "width=device-width, initial-scale=1.0" +:+ dq +:+ ">" +:+ nl +:+
  "    <title>Cursor Chat History</title>" +:+ nl +:+
  "    <style>" +:+ nl +:+
  "        " +:+ css_content +:+ nl +:+
  "    </style>" +:+ nl +:+
  "</head>" +:+ nl +:+
  "<body class=" +:+ dq +:+ "markdown-body" +:+ dq +:+ ">" +:+ nl +:+
  "    " +:+ html_content +:+ nl +:+
  "</body>" +:+ nl +:+
  "</html>".

Definition create_export_directories (output_dir : string) (w : world) : world :=
  let output_path := PyPath.Path output_dir in
  let w := mkdir output_path w in
  let formats := ["html"; "markdown"; "json"] in
  for_in formats (λ format_name w, mkdir (output_path // format_name) w) w.

(** Body of the loop of [export_chat_session] over [session['requests']]. *)
Definition conversation_of_request
    (request : Request) (conversation : list ConversationEntry) : list ConversationEntry :=
  let conversation :=
    if truthy_str (message_text request) then
      conversation ++ [ {| role := "User";
                           ce_text := get (message_text request) "";
                           ce_timestamp := get (rq_timestamp request) (TsStr "") |} ]
    else conversation in
  if truthy_list (response request) then
    let response_parts := collect_response_parts (get (response request) []) in
    if bool_decide (response_parts ≠ []) then
      conversation ++ [ {| role := "Cursor";
                           ce_text := join nl response_parts;
                           ce_timestamp := get (rq_timestamp request) (TsStr "") |} ]
    else conversation
  else conversation.

(** [workspace_data['chats'].append(record)] *)
Definition append_chat (record : ChatRecord) (workspace_data : WorkspaceData) : WorkspaceData :=
  {| wd_workspace := wd_workspace workspace_data;
     wd_workspaceInfo := wd_workspaceInfo workspace_data;
     chats := chats workspace_data ++ [record];
     wd_editingSessions := wd_editingSessions workspace_data |}.

(** [workspace_data['editingSessions'].append(record)] *)
Definition append_editing (record : EditingRecord) (workspace_data : WorkspaceData) : WorkspaceData :=
  {| wd_workspace := wd_workspace workspace_data;
     wd_workspaceInfo := wd_workspaceInfo workspace_data;
     chats := chats workspace_data;
     wd_editingSessions := wd_editingSessions workspace_data ++ [record] |}.

(** The record [export_chat_session] appends to [workspace_data['chats']]. *)
Definition chat_record (session : ChatSession) : ChatRecord :=
  let title := chat_title session in
  let timestamp := get (creationDate session) (TsStr "") in
  let conversation :=
    if truthy_list (requests session) then
      for_in (get (requests session) []) conversation_of_request []
    else [] in
  {| cr_title := title;
     cr_sessionId := get (cs_sessionId session) "";
     cr_timestamp := timestamp;
     conversation := conversation |}.

(** The record [export_editing_session] appends to
    [workspace_data['editingSessions']]. *)
Definition editing_record (editing_session : EditingSession) : EditingRecord :=
  let session_id := get (es_sessionId editing_session) "Unknown" in
  let title := "Chat Editing Session " +:+ session_id in
  {| er_title := title;
     er_sessionId := session_id;
     er_version := get (version editing_session) "";
     editCount := length (get (linearHistory editing_session) []) |}.

(** The function writes files and appends to the [workspace_data] it is
    given: both are threaded as a pair. *)
Definition export_chat_session
    (session : ChatSession) (workspace : Workspace) (workspace_name output_dir : string)
    (st : world * WorkspaceData) : world * WorkspaceData :=
  let '(w, workspace_data) := st in
  let title := chat_title session in
  let timestamp := get (creationDate session) (TsStr "") in
  let filename := get_safe_filename timestamp title in
  let markdown_content :=
    convert_cursor_session_to_markdown session (workspaceInfo workspace) in
  let md_path :=
    PyPath.Path output_dir // "markdown" // workspace_name // (filename +:+ ".md") in
  let w := mkdir (PyPath.parent md_path) w in
  let w := write_text md_path markdown_content w in
  let html_content := convert_to_html markdown_content in
  let html_path :=
    PyPath.Path output_dir // "html" // workspace_name // (filename +:+ ".html") in
  let w := mkdir (PyPath.parent html_path) w in
  let w := write_text html_path html_content w in
  (w, append_chat (chat_record session) workspace_data).

Definition export_editing_session
    (editing_session : EditingSession) (workspace : Workspace)
    (workspace_name output_dir : string)
    (st : world * WorkspaceData) : world * WorkspaceData :=
  let '(w, workspace_data) := st in
  if negb (truthy_list (linearHistory editing_session)) then st
  else
    let session_id := get (es_sessionId editing_session) "Unknown" in
    let filename := "editing-session-" +:+ session_id in
    let markdown_content :=
      convert_cursor_editing_session_to_markdown editing_session (workspaceInfo workspace) in
    let md_path :=
      PyPath.Path output_dir // "markdown" // workspace_name // (filename +:+ ".md") in
    let w := mkdir (PyPath.parent md_path) w in
    let w := write_text md_path markdown_content w in
    let html_content := convert_to_html markdown_content in
    let html_path :=
      PyPath.Path output_dir // "html" // workspace_name // (filename +:+ ".html") in
    let w := mkdir (PyPath.parent html_path) w in
    let w := write_text html_path html_content w in
    (w, append_editing (editing_record editing_session) workspace_data).

(** The name [export_workspace] gives the workspace. *)
Definition workspace_name_of (workspace : Workspace) : string :=
  let workspace_folder := get (wi_folder (workspaceInfo workspace)) "" in
  let workspace_folder :=
    if startswith workspace_folder "file://"
    then replace "file://" "" workspace_folder
    else workspace_folder in
  if nonempty workspace_folder then PyPath.name (PyPath.Path workspace_folder)
  else "Unknown".

Definition export_workspace
    (workspace : Workspace) (output_dir : string) (w : world) : world * option WorkspaceData :=
  let has_chat_sessions := truthy_list (chatSessions workspace) in
  let has_editing_sessions := truthy_list (editingSessions workspace) in
  let workspace_name := workspace_name_of workspace in
  if negb has_chat_sessions && negb has_editing_sessions then (w, None)
  else
    let w :=
      for_in ["html"; "markdown"]
        (λ format_name w, mkdir (PyPath.Path output_dir // format_name // workspace_name) w)
        w in
    let workspace_data :=
      {| wd_workspace := workspace_name;
         wd_workspaceInfo := workspaceInfo workspace;
         chats := [];
         wd_editingSessions := [] |} in
    let st := (w, workspace_data) in
    let st :=
      if has_chat_sessions then
        for_in (get (chatSessions workspace) [])
          (λ session st, export_chat_session session workspace workspace_name output_dir st)
          st
      else st in
    let st :=
      if has_editing_sessions then
        for_in (get (editingSessions workspace) [])
          (λ editing_session st,
             export_editing_session editing_session workspace workspace_name output_dir st)
          st
      else st in
    let '(w, workspace_data) := st in
    let w :=
      if bool_decide (chats workspace_data ≠ [])
         || bool_decide (wd_editingSessions workspace_data ≠ [])
      then
        let json_path := PyPath.Path output_dir // "json" // (workspace_name +:+ ".json") in
        write_text json_path (json_dumps workspace_data) w
      else w in
    (w, Some workspace_data).

Definition export_all_workspaces
    (chat_history : list Workspace) (output_dir : string) (w : world)
    : world * list (option WorkspaceData) :=
  let w := create_export_directories output_dir w in
  for_in chat_history
    (λ workspace '(w, results),
       let '(w, workspace_data) := export_workspace workspace output_dir w in
       (w, results ++ [workspace_data]))
    (w, []).

End Exporter.

(** ** The loader *)

(** What [load_workspace_data] finds in a workspace directory: each JSON file
    is given by what [json.load] makes of it. *)
Record SessionDir : Type := {
  is_dir : bool;
  state_json : option (outcome EditingSession)
}.

Record WorkspaceDir : Type := {
  workspace_json : option (outcome WorkspaceInfo);
  chatSessions_dir : option (list (outcome ChatSession));
  chatEditingSessions_dir : option (list SessionDir)
}.

Definition load_chat_sessions (session_files : list (outcome ChatSession)) : list ChatSession :=
  for_in session_files
    (λ session_file chat_sessions,
       match session_file with
       | Returns session_data =>
           if truthy_list (requests session_data)
           then chat_sessions ++ [session_data]
           else chat_sessions
       | Raises _ => chat_sessions
       end)
    [].

Definition load_editing_sessions (session_dirs : list SessionDir) : list EditingSession :=
  for_in session_dirs
    (λ session_dir editing_sessions,
       if is_dir session_dir then
         match state_json session_dir with
         | Some (Returns state_data) =>
             if truthy_list (linearHistory state_data)
             then editing_sessions ++ [state_data]
             else editing_sessions
         | Some (Raises _) | None => editing_sessions
         end
       else editing_sessions)
    [].

Definition load_workspace_data (workspace_dir : WorkspaceDir) : option Workspace :=
  match workspace_json workspace_dir with
  | None => None
  | Some (Raises _) => None
  | Some (Returns workspace_info) =>
      let chat_sessions :=
        match chatSessions_dir workspace_dir with
        | Some session_files => load_chat_sessions session_files
        | None => []
        end in
      let editing_sessions :=
        match chatEditingSessions_dir workspace_dir with
        | Some session_dirs => load_editing_sessions session_dirs
        | None => []
        end in
      if bool_decide (chat_sessions ≠ []) || bool_decide (editing_sessions ≠ [])
      then Some {| workspaceInfo := workspace_info;
                   chatSessions := Some chat_sessions;
                   editingSessions := Some editing_sessions |}
      else None
  end.

(** ** A runtime for the closed examples: UTC, the parser above, a markdown
    converter and a JSON writer that are left as marks around their input. *)

Definition json_mark (d : WorkspaceData) : string :=
  "json:" +:+ wd_workspace d.

Definition utc_runtime : Runtime :=
  {| utcoffset := λ _, 0;
     fromisoformat := IsoFormat.fromisoformat;
     markdown_markdown := λ s, s;
     json_dumps := json_mark |}.

(** ** Reading the functions

    The pieces below name what the loops above produce, so that the
    properties can speak of them. *)

(** What a request adds before its separator. *)
Definition user_block (request : Request) : string :=
  if truthy_str (message_text request)
  then "**User**:" +:+ PyStr.nl +:+ PyStr.nl +:+ get (message_text request) "" +:+ PyStr.nl +:+ PyStr.nl
  else "".

Definition cursor_block (request : Request) : string :=
  if truthy_list (response request) then
    let response_parts := collect_response_parts (get (response request) []) in
    if bool_decide (response_parts ≠ [])
    then "**Cursor**:" +:+ PyStr.nl +:+ PyStr.nl +:+ PyStr.join PyStr.nl response_parts +:+ PyStr.nl +:+ PyStr.nl
    else ""
  else "".

Definition separator : string := "---" +:+ PyStr.nl +:+ PyStr.nl.

(** A request with no message text and no response fragment that has text. *)
Definition no_text (request : Request) : bool :=
  negb (truthy_str (message_text request))
  && forallb (λ item, negb (truthy_str (value item))) (get (response request) []).

(** The line written for one change of [originalToCurrentEdit]. *)
Definition change_line (change : Change) : string :=
  "    - Added: `" +:+ PyStr.slice_to 100 (get (txt change) "") +:+ "...`" +:+ PyStr.nl.

Definition has_txt (change : Change) : bool := truthy_str (txt change).

(** An editing session that [export_editing_session] does not skip. *)
Definition has_history (editing_session : EditingSession) : bool :=
  truthy_list (linearHistory editing_session).

(** [has_chat_sessions or has_editing_sessions] in [export_workspace]. *)
Definition has_sessions (workspace : Workspace) : bool :=
  truthy_list (chatSessions workspace) || truthy_list (editingSessions workspace).

(** The summary of a workspace: one chat record per chat session, one editing
    record per editing session with a history. *)
Definition summary_of (workspace : Workspace) : WorkspaceData :=
  {| wd_workspace := workspace_name_of workspace;
     wd_workspaceInfo := workspaceInfo workspace;
     chats := chat_record <$> get (chatSessions workspace) [];
     wd_editingSessions :=
       editing_record <$> List.filter has_history (get (editingSessions workspace) []) |}.

Definition json_path_of (workspace : Workspace) (output_dir : string) : path :=
  PyPath.Path output_dir // "json" // (workspace_name_of workspace +:+ ".json").


(** Fields of a date that [strftime] writes on 4+2+2+2+2+2 digits. *)
Definition datetime_ok (d : datetime) : bool :=
  (0 <=? year d) && (year d <=? 9999) && (0 <=? month d) && (month d <=? 99)
  && (0 <=? day d) && (day d <=? 99) && (0 <=? hour d) && (hour d <=? 99)
  && (0 <=? minute d) && (minute d <=? 99) && (0 <=? second d) && (second d <=? 99).

(** A character a formatted date is made of, once blanks and colons are
    dashes. *)
Definition date_char (c : ascii) : bool :=
  let n := nat_of_ascii c in ((48 <=? n) && (n <=? 57) || (n =? 45))%nat.

Definition stamp_char (c : ascii) : bool :=
  date_char c || Ascii.eqb c " " || Ascii.eqb c ":".

Definition valid_char (c : ascii) : bool := negb (PyRe.invalid_char c).

Definition four_digits (s : string) : bool :=
  Nat.eqb (String.length s) 4 && PyStr.all date_char s.

Definition two_digits (s : string) : bool :=
  Nat.eqb (String.length s) 2 && PyStr.all date_char s.

(** A check run on every number from [start], [count] times. *)
Fixpoint all_from (p : Z → bool) (count : nat) (start : Z) : bool :=
  match count with
  | O => true
  | S k => p start && all_from p k (start + 1)
  end.

(** ** Sample inputs *)

Module Sample.

Definition info_proj : WorkspaceInfo :=
  {| wi_id := Some "w1"; wi_folder := Some "file:///home/u/proj"; wi_lastModified := None |}.

(** One request: the user says Hi, one response fragment says Hello. *)
Definition request_hi : Request :=
  {| message := Some {| text := Some "Hi" |};
     response := Some [ {| value := Some "Hello" |} ];
     rq_timestamp := None |}.

Definition session_hi : ChatSession :=
  {| cs_sessionId := Some "s1"; customTitle := None;
     creationDate := Some (TsInt 1705313400000); requests := Some [request_hi] |}.

Definition workspace_hi : Workspace :=
  {| workspaceInfo := info_proj; chatSessions := Some [session_hi]; editingSessions := None |}.

(** A request with no message and no response. *)
Definition request_blank : Request :=
  {| message := None; response := None; rq_timestamp := None |}.

Definition session_blank : ChatSession :=
  {| cs_sessionId := Some "s2"; customTitle := None;
     creationDate := None; requests := Some [request_blank] |}.

Definition workspace_blank : Workspace :=
  {| workspaceInfo := info_proj; chatSessions := Some [session_blank]; editingSessions := None |}.

(** An editing session with an empty history. *)
Definition editing_empty : EditingSession :=
  {| es_sessionId := Some "e1"; version := None; linearHistory := Some [] |}.

Definition workspace_editing_empty : Workspace :=
  {| workspaceInfo := info_proj; chatSessions := None; editingSessions := Some [editing_empty] |}.

(** A workspace directory holding one chat session file and one editing
    session directory. *)
Definition editing_one : EditingSession :=
  {| es_sessionId := Some "e2"; version := None;
     linearHistory := Some [ {| stops := None; postEdit := None |} ] |}.

Definition dir_one : WorkspaceDir :=
  {| workspace_json := Some (Returns info_proj);
     chatSessions_dir := Some [Returns session_hi; Raises ValueError];
     chatEditingSessions_dir :=
       Some [ {| is_dir := true; state_json := Some (Returns editing_one) |};
              {| is_dir := true; state_json := Some (Returns editing_empty) |} ] |}.

(** A workspace known by its id only. *)
Definition workspace_id_only : Workspace :=
  {| workspaceInfo := {| wi_id := Some "ws-1"; wi_folder := None; wi_lastModified := None |};
     chatSessions := Some [session_hi]; editingSessions := None |}.


(** Six changes, each with a text. *)
Definition edit_six_full : PostEdit :=
  {| pe_resource := Some "file:///home/u/proj/a.py";
     originalToCurrentEdit :=
       Some [ {| txt := Some "a" |}; {| txt := Some "b" |}; {| txt := Some "c" |};
              {| txt := Some "d" |}; {| txt := Some "e" |}; {| txt := Some "f" |} ] |}.

End Sample.

(** ** Tactics *)

(** Boolean checks in the hypotheses, read as bounds. *)
Ltac bounds_of_checks :=
  repeat match goal with
         | H : (_ && _) = true |- _ => apply andb_prop in H as [? ?]
         | H : (_ <=? _) = true |- _ => apply Z.leb_le in H
         end.


(** ** The storage directory and the command line *)

(** What [load_chat_history_from_directory] finds at the storage path: the
    entries of the directory, in the order [iterdir] gives them. *)
Record StorageEntry : Type := {
  entry_name : string;
  entry_is_dir : bool;
  entry_dir : WorkspaceDir
}.

Inductive StoragePath : Type :=
  | StorageMissing
  | StorageNotADirectory
  | StorageDirectory (entries : list StorageEntry).

Inductive os_error : Type := FileNotFoundError | NotADirectoryError.

Definition load_chat_history_from_directory
    (workspace_storage_dir : StoragePath) : os_error + list Workspace :=
  match workspace_storage_dir with
  | StorageMissing => inl FileNotFoundError
  | StorageNotADirectory => inl NotADirectoryError
  | StorageDirectory entries =>
      inr (for_in entries
             (λ workspace_dir workspaces,
                if entry_is_dir workspace_dir
                   && negb (String.eqb (entry_name workspace_dir) "images")
                then
                  match load_workspace_data (entry_dir workspace_dir) with
                  | Some workspace_data => workspaces ++ [workspace_data]
                  | None => workspaces
                  end
                else workspaces)
             [])
  end.


Section CommandLine.

Context `{Runtime}.


End CommandLine.

(** ** Reading the exporter: what it does to the file system *)

(** The two things the exporter does to the world. *)
Inductive effect : Type :=
  | Mkdir (p : path)
  | WriteText (p : path) (content : string).

Definition run_effect (e : effect) (w : world) : world :=
  match e with
  | Mkdir p => mkdir p w
  | WriteText p content => write_text p content w
  end.

Definition run (effects : list effect) (w : world) : world :=
  for_in effects run_effect w.

(** The last text a list of effects writes at a path, if it writes there. *)
Fixpoint written (effects : list effect) (p : path) : option string :=
  match effects with
  | [] => None
  | e :: rest =>
      match written rest p with
      | Some content => Some content
      | None =>
          match e with
          | WriteText q content => if decide (q = p) then Some content else None
          | Mkdir _ => None
          end
      end
  end.

(** The directories a list of effects makes. *)
Fixpoint made (effects : list effect) : gset path :=
  match effects with
  | [] => ∅
  | Mkdir p :: rest => list_to_set (PyPath.with_parents p) ∪ made rest
  | WriteText _ _ :: rest => made rest
  end.



(** The path of a document: [Path(output_dir) / format / workspace / name]. *)
Definition document_path (output_dir format_name workspace_name filename : string) : path :=
  PyPath.Path output_dir // format_name // workspace_name // filename.

Section Effects.

Context `{Runtime}.

Definition chat_filename (session : ChatSession) : string :=
  get_safe_filename (get (creationDate session) (TsStr "")) (chat_title session).

Definition chat_session_effects
    (session : ChatSession) (workspace : Workspace) (workspace_name output_dir : string)
    : list effect :=
  let markdown_content :=
    convert_cursor_session_to_markdown session (workspaceInfo workspace) in
  let md_path :=
    document_path output_dir "markdown" workspace_name (chat_filename session +:+ ".md") in
  let html_path :=
    document_path output_dir "html" workspace_name (chat_filename session +:+ ".html") in
  [ Mkdir (PyPath.parent md_path); WriteText md_path markdown_content;
    Mkdir (PyPath.parent html_path); WriteText html_path (convert_to_html markdown_content) ].

Definition editing_filename (editing_session : EditingSession) : string :=
  "editing-session-" +:+ get (es_sessionId editing_session) "Unknown".

Definition editing_session_effects
    (editing_session : EditingSession) (workspace : Workspace)
    (workspace_name output_dir : string) : list effect :=
  if has_history editing_session then
    let markdown_content :=
      convert_cursor_editing_session_to_markdown editing_session (workspaceInfo workspace) in
    let md_path :=
      document_path output_dir "markdown" workspace_name
        (editing_filename editing_session +:+ ".md") in
    let html_path :=
      document_path output_dir "html" workspace_name
        (editing_filename editing_session +:+ ".html") in
    [ Mkdir (PyPath.parent md_path); WriteText md_path markdown_content;
      Mkdir (PyPath.parent html_path);
      WriteText html_path (convert_to_html markdown_content) ]
  else [].

Definition workspace_effects (workspace : Workspace) (output_dir : string) : list effect :=
  if has_sessions workspace then
    let workspace_name := workspace_name_of workspace in
    let d := summary_of workspace in
    [ Mkdir (PyPath.Path output_dir // "html" // workspace_name);
      Mkdir (PyPath.Path output_dir // "markdown" // workspace_name) ]
    ++ mjoin ((λ session, chat_session_effects session workspace workspace_name output_dir)
                <$> get (chatSessions workspace) [])
    ++ mjoin ((λ editing_session,
                 editing_session_effects editing_session workspace workspace_name output_dir)
                <$> get (editingSessions workspace) [])
    ++ (if bool_decide (chats d ≠ []) || bool_decide (wd_editingSessions d ≠ [])
        then [WriteText (json_path_of workspace output_dir) (json_dumps d)]
        else [])
  else [].

Definition directories_effects (output_dir : string) : list effect :=
  [ Mkdir (PyPath.Path output_dir);
    Mkdir (PyPath.Path output_dir // "html");
    Mkdir (PyPath.Path output_dir // "markdown");
    Mkdir (PyPath.Path output_dir // "json") ].

Definition history_effects (chat_history : list Workspace) (output_dir : string) : list effect :=
  directories_effects output_dir
  ++ mjoin ((λ workspace, workspace_effects workspace output_dir) <$> chat_history).

(** What [export_workspace] returns. *)
Definition result_of (workspace : Workspace) : option WorkspaceData :=
  if has_sessions workspace then Some (summary_of workspace) else None.

End Effects.

(** ** Reading the converters: turns and edits *)

(** The entries [export_chat_session] records for one request. *)
Definition conversation_entries (request : Request) : list ConversationEntry :=
  (if truthy_str (message_text request)
   then [ {| role := "User";
             ce_text := get (message_text request) "";
             ce_timestamp := get (rq_timestamp request) (TsStr "") |} ]
   else [])
  ++ (if truthy_list (response request)
         && bool_decide (collect_response_parts (get (response request) []) ≠ [])
      then [ {| role := "Cursor";
                ce_text := PyStr.join PyStr.nl
                             (collect_response_parts (get (response request) []));
                ce_timestamp := get (rq_timestamp request) (TsStr "") |} ]
      else []).

(** A recorded turn as the document shows it. *)
Definition entry_block (e : ConversationEntry) : string :=
  "**" +:+ role e +:+ "**:" +:+ PyStr.nl +:+ PyStr.nl +:+ ce_text e +:+ PyStr.nl +:+ PyStr.nl.

(** What the editing document holds for a file entry of a stop, for a
    [postEdit] element, and for the entry number [i] of the history. *)
Definition file_entry_block (file_entry : FileEntry) : string :=
  let resource := get (fe_resource file_entry) "" in
  if PyStr.startswith resource "file://"
  then "**Modified File**: `" +:+ PyStr.replace "file://" "" resource +:+ "`"
         +:+ PyStr.nl +:+ PyStr.nl
  else "".

Definition stop_block (stop : Stop) : string :=
  PyStr.join "" (file_entry_block <$> get (entries stop) []).

Definition post_edit_block (edit : PostEdit) : string :=
  let resource := get (pe_resource edit) "" in
  if PyStr.startswith resource "file://" then
    "- Modified: `" +:+ PyStr.replace "file://" "" resource +:+ "`" +:+ PyStr.nl
    +:+ (if truthy_list (originalToCurrentEdit edit)
         then "  - Edits:" +:+ PyStr.nl
                +:+ PyStr.join ""
                      (change_line <$>
                         List.filter has_txt (firstn 5 (get (originalToCurrentEdit edit) [])))
         else "")
  else "".

Definition edit_entry_block (i : nat) (entry : EditEntry) : string :=
  "### Edit " +:+ PyStr.of_int (Z.of_nat i + 1) +:+ PyStr.nl +:+ PyStr.nl
  +:+ PyStr.join "" (stop_block <$> get (stops entry) [])
  +:+ (if truthy_list (postEdit entry)
       then "**Changes Made**:" +:+ PyStr.nl +:+ PyStr.nl
              +:+ PyStr.join "" (post_edit_block <$> get (postEdit entry) [])
              +:+ PyStr.nl
       else "")
  +:+ separator.

(** ** Reading the loader *)



(** A storage entry the loader turns into a workspace. *)
Definition kept_workspace (entry : StorageEntry) : option Workspace :=
  if entry_is_dir entry && negb (String.eqb (entry_name entry) "images")
  then load_workspace_data (entry_dir entry)
  else None.

(** ** Reading the file names *)

Definition no_slash (s : string) : bool :=
  PyStr.all (λ c, negb (Ascii.eqb c "/")) s.

Definition no_space (s : string) : bool :=
  PyStr.all (λ c, negb (PyRe.is_space c)) s.

Definition no_blank_no_colon (s : string) : bool :=
  PyStr.all (λ c, negb (Ascii.eqb c " ") && negb (Ascii.eqb c ":")) s.

(** The last character of a text: what tells the extensions apart. *)
Fixpoint last_char (s : string) : option ascii :=
  match s with
  | "" => None
  | String c r =>
      match r with
      | "" => Some c
      | String _ _ => last_char r
      end
  end.

(** Every write of a list of effects goes to a directory that is there:
    one of [made_before], or one the list has made by then. *)
Fixpoint prepared (made_before : gset path) (effects : list effect) : Prop :=
  match effects with
  | [] => True
  | Mkdir p :: rest => prepared (made_before ∪ list_to_set (PyPath.with_parents p)) rest
  | WriteText p _ :: rest =>
      ((PyPath.parent p).2 = [] ∨ PyPath.parent p ∈ made_before) ∧ prepared made_before rest
  end.

(** ** More sample inputs *)

Module Storage.

(** Two workspaces whose folders have the same last part. *)
Definition workspace_a : Workspace :=
  {| workspaceInfo :=
       {| wi_id := Some "wa"; wi_folder := Some "file:///a/proj"; wi_lastModified := None |};
     chatSessions := Some [Sample.session_hi]; editingSessions := None |}.

Definition workspace_b : Workspace :=
  {| workspaceInfo :=
       {| wi_id := Some "wb"; wi_folder := Some "/b/proj"; wi_lastModified := None |};
     chatSessions := Some [Sample.session_blank]; editingSessions := None |}.

(** A directory without [workspace.json]. *)
Definition dir_bare : WorkspaceDir :=
  {| workspace_json := None; chatSessions_dir := None; chatEditingSessions_dir := None |}.

(** A storage directory: a workspace, the [images] directory, a plain file
    and a directory that is no workspace. *)
Definition entries : list StorageEntry :=
  [ {| entry_name := "0a1b"; entry_is_dir := true; entry_dir := Sample.dir_one |};
    {| entry_name := "images"; entry_is_dir := true; entry_dir := Sample.dir_one |};
    {| entry_name := "notes.txt"; entry_is_dir := false; entry_dir := Sample.dir_one |};
    {| entry_name := "cache"; entry_is_dir := true; entry_dir := dir_bare |} ].

(** What the loader makes of [Sample.dir_one]. *)
Definition loaded_one : Workspace :=
  {| workspaceInfo := Sample.info_proj;
     chatSessions := Some [Sample.session_hi];
     editingSessions := Some [Sample.editing_one] |}.

End Storage.


(** * Properties *)

(** ** The runtime model on known values *)

Example fromtimestamp_2024 :
  PyDatetime.strftime <$>
    (match PyDatetime.fromtimestamp (λ _, 0) 1705313400 with
     | Returns d => Some d | Raises _ => None end)
  = Some "2024-01-15 10:10:00".
Proof. vm_compute. reflexivity. Qed.

Example path_name_posix :
  PyPath.name (PyPath.Path "/Users/example/projects/sample-project") = "sample-project"
  ∧ PyPath.name (PyPath.Path "/home/u/proj/") = "proj"
  ∧ PyPath.name (PyPath.Path "/") = "".
Proof. vm_compute. done. Qed.

(** ** Texts *)

Lemma append_cons (c : ascii) (s t : string) : String c s +:+ t = String c (s +:+ t).
Proof. reflexivity. Qed.

Lemma append_nil_r (s : string) : s +:+ "" = s.
Proof. induction s as [|c s IH]; [done | by rewrite append_cons, IH]. Qed.

Lemma append_assoc (s1 s2 s3 : string) : (s1 +:+ s2) +:+ s3 = s1 +:+ s2 +:+ s3.
Proof. induction s1 as [|c s1 IH]; [done | by rewrite !append_cons, IH]. Qed.

Lemma length_append (s1 s2 : string) :
  String.length (s1 +:+ s2) = (String.length s1 + String.length s2)%nat.
Proof. induction s1 as [|c s1 IH]; [done | rewrite append_cons; simpl; by rewrite IH]. Qed.

(** ** Loops *)

Lemma for_in_cons {A S} (x : A) (xs : list A) (body : A → S → S) (s : S) :
  for_in (x :: xs) body s = for_in xs body (body x s).
Proof. reflexivity. Qed.

(** A property of the threaded state that every turn of the loop keeps. *)
Lemma for_in_invariant {A S} (P : S → Prop) (body : A → S → S) (xs : list A) (s : S) :
  P s → (∀ x s, P s → P (body x s)) → P (for_in xs body s).
Proof.
  intros Hs Hbody. revert s Hs. induction xs as [|x xs IH]; intros s Hs; [done|].
  rewrite for_in_cons. by apply IH, Hbody.
Qed.

Lemma for_in_ext {A S} (body1 body2 : A → S → S) (xs : list A) (s : S) :
  (∀ x s, body1 x s = body2 x s) → for_in xs body1 s = for_in xs body2 s.
Proof.
  intros Hb. revert s. induction xs as [|x xs IH]; intros s; [done|].
  by rewrite !for_in_cons, Hb, IH.
Qed.

(** ** The exporter *)

Section ExporterFacts.
Context `{Runtime}.

Lemma export_chat_session_data session workspace workspace_name output_dir st :
  (export_chat_session session workspace workspace_name output_dir st).2
  = append_chat (chat_record session) st.2.
Proof. by destruct st. Qed.

Lemma export_editing_session_skip editing_session workspace workspace_name output_dir st :
  truthy_list (linearHistory editing_session) = false →
  export_editing_session editing_session workspace workspace_name output_dir st = st.
Proof. intros Hl. destruct st. unfold export_editing_session. by rewrite Hl. Qed.

Lemma export_editing_session_data editing_session workspace workspace_name output_dir st :
  truthy_list (linearHistory editing_session) = true →
  (export_editing_session editing_session workspace workspace_name output_dir st).2
  = append_editing (editing_record editing_session) st.2.
Proof. intros Hl. destruct st. unfold export_editing_session. by rewrite Hl. Qed.

(** The loop of [export_workspace] over the chat sessions: one record per
    session, in order; the editing records are left alone. *)
Lemma chat_loop_data sessions workspace workspace_name output_dir st :
  let st' :=
    for_in sessions
      (λ session st, export_chat_session session workspace workspace_name output_dir st) st in
  chats st'.2 = chats st.2 ++ (chat_record <$> sessions)
  ∧ wd_editingSessions st'.2 = wd_editingSessions st.2
  ∧ wd_workspace st'.2 = wd_workspace st.2
  ∧ wd_workspaceInfo st'.2 = wd_workspaceInfo st.2.
Proof.
  revert st. induction sessions as [|s sessions IH]; intros st; cbv zeta.
  - simpl. by rewrite app_nil_r.
  - rewrite for_in_cons. destruct (IH (export_chat_session s workspace workspace_name output_dir st))
      as (-> & -> & -> & ->).
    rewrite export_chat_session_data. simpl. by rewrite <- app_assoc.
Qed.

(** The loop over the editing sessions: one record per session with a
    non-empty history; the chat records are left alone. *)
Lemma editing_loop_data sessions workspace workspace_name output_dir st :
  let st' :=
    for_in sessions
      (λ editing_session st,
         export_editing_session editing_session workspace workspace_name output_dir st) st in
  chats st'.2 = chats st.2
  ∧ wd_editingSessions st'.2
    = wd_editingSessions st.2 ++ (editing_record <$> List.filter has_history sessions)
  ∧ wd_workspace st'.2 = wd_workspace st.2
  ∧ wd_workspaceInfo st'.2 = wd_workspaceInfo st.2.
Proof.
  revert st. induction sessions as [|s sessions IH]; intros st; cbv zeta.
  - simpl. by rewrite app_nil_r.
  - rewrite for_in_cons.
    destruct (IH (export_editing_session s workspace workspace_name output_dir st))
      as (-> & -> & -> & ->).
    simpl List.filter. unfold has_history at 2.
    destruct (truthy_list (linearHistory s)) eqn:Hs.
    + rewrite export_editing_session_data by done. simpl. by rewrite <- app_assoc.
    + by rewrite export_editing_session_skip.
Qed.

(** When every editing session is skipped, the loop changes nothing. *)
Lemma editing_loop_all_skipped sessions workspace workspace_name output_dir st :
  List.filter has_history sessions = [] →
  for_in sessions
    (λ editing_session st,
       export_editing_session editing_session workspace workspace_name output_dir st) st
  = st.
Proof.
  induction sessions as [|s sessions IH]; [done|].
  simpl List.filter. unfold has_history at 1.
  destruct (truthy_list (linearHistory s)) eqn:Hs; [done|].
  intros Hf. rewrite for_in_cons, export_editing_session_skip by done. auto.
Qed.

Lemma truthy_list_false {A} (o : option (list A)) : truthy_list o = false → get o [] = [].
Proof. by destruct o as [[|??]|]. Qed.

Lemma WorkspaceData_eq (d1 d2 : WorkspaceData) :
  wd_workspace d1 = wd_workspace d2 → wd_workspaceInfo d1 = wd_workspaceInfo d2 →
  chats d1 = chats d2 → wd_editingSessions d1 = wd_editingSessions d2 → d1 = d2.
Proof. destruct d1, d2; simpl; by intros -> -> -> ->. Qed.

Lemma export_workspace_result workspace output_dir w :
  (export_workspace workspace output_dir w).2
  = if has_sessions workspace then Some (summary_of workspace) else None.
Proof.
  unfold export_workspace, has_sessions.
  destruct (truthy_list (chatSessions workspace)) eqn:Hc,
           (truthy_list (editingSessions workspace)) eqn:He; simpl negb; simpl orb; simpl andb;
    cbv iota; try done.
  all: match goal with
       | |- context [let '(w, d) := ?st in _] =>
           let Hst := fresh "Hst" in
           remember st as st' eqn:Hst; destruct st' as [w' d']; simpl;
           f_equal; apply (f_equal snd) in Hst; simpl in Hst; subst d'
       end.
  - match goal with |- context [for_in ?es ?b (for_in ?cs ?c ?st)] =>
      destruct (editing_loop_data es workspace (workspace_name_of workspace) output_dir
                  (for_in cs c st)) as (E1 & E2 & E3 & E4);
      destruct (chat_loop_data cs workspace (workspace_name_of workspace) output_dir st)
        as (C1 & C2 & C3 & C4) end.
    apply WorkspaceData_eq; rewrite ?E1, ?E2, ?E3, ?E4, ?C1, ?C2, ?C3, ?C4; done.
  - match goal with |- context [for_in ?cs ?c ?st] =>
      destruct (chat_loop_data cs workspace (workspace_name_of workspace) output_dir st)
        as (C1 & C2 & C3 & C4) end.
    apply WorkspaceData_eq; rewrite ?C1, ?C2, ?C3, ?C4; simpl; try done.
    by rewrite (truthy_list_false _ He).
  - match goal with |- context [for_in ?es ?b ?st] =>
      destruct (editing_loop_data es workspace (workspace_name_of workspace) output_dir st)
        as (E1 & E2 & E3 & E4) end.
    apply WorkspaceData_eq; rewrite ?E1, ?E2, ?E3, ?E4; simpl; try done.
    by rewrite (truthy_list_false _ Hc).
Qed.

Lemma truthy_list_get_nil {A} (o : option (list A)) : get o [] = [] → truthy_list o = false.
Proof. by destruct o as [[|??]|]. Qed.

(** The world [export_workspace] leaves: the world [w2] after the session
    loops, with the summary file written when the summary is not empty. *)
Lemma export_workspace_world workspace output_dir w :
  has_sessions workspace = true →
  let d := summary_of workspace in
  ∃ w2,
    (export_workspace workspace output_dir w).1
    = (if bool_decide (chats d ≠ []) || bool_decide (wd_editingSessions d ≠ [])
       then write_text (json_path_of workspace output_dir) (json_dumps d) w2
       else w2)
    ∧ (chats d = [] → wd_editingSessions d = [] → files w2 = files w).
Proof.
  intros Hs d.
  pose proof (export_workspace_result workspace output_dir w) as Hr.
  rewrite Hs in Hr. fold d in Hr.
  unfold export_workspace in *. unfold has_sessions in Hs.
  destruct (negb (truthy_list (chatSessions workspace))
            && negb (truthy_list (editingSessions workspace))) eqn:Hskip.
  { destruct (truthy_list (chatSessions workspace)),
             (truthy_list (editingSessions workspace)); done. }
  match type of Hr with
  | context [let '(w, d) := ?st in _] =>
      remember st as st' eqn:Hst; destruct st' as [w' d']
  end.
  simpl in Hr. injection Hr as ->. exists w'. split; [done|].
  intros Hc He.
  apply fmap_nil_inv in Hc. apply fmap_nil_inv in He.
  apply (f_equal fst) in Hst. simpl in Hst. subst w'.
  rewrite (truthy_list_get_nil _ Hc).
  destruct (truthy_list (editingSessions workspace)).
  - rewrite editing_loop_all_skipped by done. simpl. done.
  - done.
Qed.

Lemma export_workspace_skip workspace output_dir w :
  has_sessions workspace = false → export_workspace workspace output_dir w = (w, None).
Proof.
  unfold has_sessions, export_workspace.
  by destruct (truthy_list (chatSessions workspace)),
              (truthy_list (editingSessions workspace)).
Qed.

End ExporterFacts.

(** ** The formatter: dates and their texts *)

(** The year of a day between 1970-01-01 and 2286-11-21. *)
Lemma civil_from_days_year (days : Z) :
  0 ≤ days ≤ 115742 →
  let '(y, _, _) := PyDatetime.civil_from_days days in 1600 ≤ y ≤ 2401.
Proof.
  intros Hdays. unfold PyDatetime.civil_from_days.
  set (z := days + 719468).
  set (era := z / 146097).
  set (doe := z - era * 146097).
  set (yoe := (doe - doe / 1460 + doe / 36524 - doe / 146096) / 365).
  assert (4 ≤ era ≤ 5) as Hera.
  { subst era z. Z.div_mod_to_equations. lia. }
  assert (0 ≤ doe < 146097) as Hdoe.
  { subst doe era. Z.div_mod_to_equations. lia. }
  assert (0 ≤ yoe ≤ 400) as Hyoe.
  { subst yoe. clearbody doe. Z.div_mod_to_equations. lia. }
  match goal with
  | |- context [yoe + era * 400 + ?carry] =>
      assert (0 ≤ carry ≤ 1) as Hcarry by (destruct (_ <=? 2); lia)
  end.
  lia.
Qed.

(** Between 1970-04-26 and 2286-11-20 the year of a local date is in the
    range [datetime] accepts, in any zone less than a day away from UTC. *)
Lemma fromtimestamp_returns (offset : Z → Z) (t : Z) :
  (∀ t, -86400 < offset t < 86400) →
  10000000 ≤ t ≤ 10000000000 →
  ∃ d, PyDatetime.fromtimestamp offset t = Returns d.
Proof.
  intros Hoff Ht. unfold PyDatetime.fromtimestamp.
  pose proof (Hoff t) as Ho. pose proof (Hoff (t - 86400)) as Hp.
  set (lt := t + offset t). set (probe := t - 86400 + offset (t - 86400)).
  assert (0 ≤ lt / 86400 ≤ 115742) as Hdays.
  { subst lt. Z.div_mod_to_equations. lia. }
  assert (0 ≤ probe / 86400 ≤ 115742) as Hprobe.
  { subst probe. Z.div_mod_to_equations. lia. }
  pose proof (civil_from_days_year _ Hdays) as Hy.
  pose proof (civil_from_days_year _ Hprobe) as Hpy.
  destruct (PyDatetime.civil_from_days (lt / 86400)) as [[y m] d].
  destruct (PyDatetime.civil_from_days (probe / 86400)) as [[probe_y probe_m] probe_d].
  assert ((1 <=? probe_y) && (1 <=? y) && (y <=? 9999) = true) as ->.
  { repeat (apply andb_true_intro; split); apply Z.leb_le; lia. }
  eauto.
Qed.

Section FormatFacts.
Context `{Runtime}.

Lemma format_datetime_of_date (date_str : timestamp) (date : datetime) :
  parse_datetime date_str = Returns date →
  format_datetime date_str = PyDatetime.strftime date.
Proof. intros Hp. unfold format_datetime, format_datetime_try. by rewrite Hp. Qed.


End FormatFacts.

(** ** File names, when the time stamp gives a date *)

(** *** Characters *)

Lemma all_append (p : ascii → bool) (s t : string) :
  PyStr.all p (s +:+ t) = PyStr.all p s && PyStr.all p t.
Proof.
  induction s as [|c s IH]; [done|]. rewrite append_cons. simpl. rewrite IH.
  by rewrite andb_assoc.
Qed.

Lemma all_impl (p q : ascii → bool) (s : string) :
  (∀ c, p c = true → q c = true) → PyStr.all p s = true → PyStr.all q s = true.
Proof.
  intros Hpq. induction s as [|c s IH]; [done|]. simpl.
  intros [Hc Hs]%andb_prop. rewrite (Hpq c Hc). by apply IH.
Qed.

Lemma all_take (p : ascii → bool) (n : nat) (s : string) :
  PyStr.all p s = true → PyStr.all p (PyStr.take n s) = true.
Proof.
  revert n. induction s as [|c s IH]; intros [|n]; try done. simpl.
  intros [Hc Hs]%andb_prop. rewrite Hc. by apply IH.
Qed.

Lemma length_take_le (n : nat) (s : string) :
  (String.length (PyStr.take n s) ≤ n)%nat.
Proof.
  revert n. induction s as [|c s IH]; intros [|n]; simpl; try lia.
  specialize (IH n). lia.
Qed.

Lemma all_slice_to (p : ascii → bool) (k : Z) (s : string) :
  PyStr.all p s = true → PyStr.all p (PyStr.slice_to k s) = true.
Proof. unfold PyStr.slice_to. destruct (0 <=? k); apply all_take. Qed.

Lemma len_slice_to (k : Z) (s : string) :
  0 ≤ k → PyStr.len (PyStr.slice_to k s) ≤ k.
Proof.
  intros Hk. unfold PyStr.slice_to, PyStr.len.
  destruct (0 <=? k) eqn:Hk'; [|apply Z.leb_gt in Hk'; lia].
  pose proof (length_take_le (Z.to_nat k) s). lia.
Qed.

Lemma prefix_empty (s : string) : String.prefix "" s = true.
Proof. by destruct s. Qed.

(** Replacing one character by another goes character by character. *)
Lemma replace_char (a b : ascii) (s : string) :
  PyStr.replace (String a "") (String b "") s
  = PyStr.map (λ c, if Ascii.eqb a c then b else c) s.
Proof.
  unfold PyStr.replace. induction s as [|c s IH]; [done|].
  cbn [PyStr.replace_go PyStr.map String.prefix String.length Nat.sub].
  destruct (ascii_dec a c) as [->|Hne].
  - by rewrite Ascii.eqb_refl, prefix_empty, IH.
  - apply Ascii.eqb_neq in Hne. rewrite Hne. by rewrite IH.
Qed.

Lemma length_map (f : ascii → ascii) (s : string) :
  String.length (PyStr.map f s) = String.length s.
Proof. induction s as [|c s IH]; simpl; [done | by rewrite IH]. Qed.

Lemma all_map (p : ascii → bool) (f : ascii → ascii) (s : string) :
  PyStr.all p (PyStr.map f s) = PyStr.all (λ c, p (f c)) s.
Proof. induction s as [|c s IH]; simpl; [done | by rewrite IH]. Qed.

(** *** The title *)

Lemma sub_invalid_valid (title : string) :
  PyStr.all valid_char (PyRe.sub_invalid title) = true.
Proof.
  unfold PyRe.sub_invalid. rewrite all_map.
  induction title as [|c s IH]; [done|]. simpl. rewrite IH, andb_true_r.
  unfold valid_char. destruct (PyRe.invalid_char c) eqn:Hc; [done|]. by rewrite Hc.
Qed.

Lemma sub_spaces_valid (s : string) :
  PyStr.all valid_char s = true → PyStr.all valid_char (PyRe.sub_spaces s) = true.
Proof.
  unfold PyRe.sub_spaces. generalize false.
  induction s as [|c s IH]; intros in_run; [done|]. simpl.
  intros [Hc Hs]%andb_prop.
  destruct (PyRe.is_space c); [destruct in_run|]; simpl; rewrite ?Hc; by apply IH.
Qed.

(** *** The date *)

Lemma all_from_spec (p : Z → bool) (count : nat) (start : Z) :
  all_from p count start = true →
  ∀ n, start ≤ n < start + Z.of_nat count → p n = true.
Proof.
  revert start. induction count as [|k IH]; intros start Hall n Hn; [lia|].
  simpl in Hall. apply andb_prop in Hall as [Hp Hall].
  destruct (decide (n = start)) as [->|Hne]; [done|].
  apply (IH (start + 1)); [done | lia].
Qed.

Lemma forall_below (p : Z → bool) (bound : Z) :
  all_from p (Z.to_nat bound) 0 = true → ∀ n, 0 ≤ n < bound → p n = true.
Proof. intros Hall n Hn. apply (all_from_spec p (Z.to_nat bound) 0 Hall). lia. Qed.

Lemma zfill_4_digits (n : Z) : 0 ≤ n ≤ 9999 → four_digits (PyStr.zfill 4 n) = true.
Proof.
  intros Hn. apply (forall_below (λ n, four_digits (PyStr.zfill 4 n)) 10000); [|lia].
  vm_compute. reflexivity.
Qed.

Lemma zfill_2_digits (n : Z) : 0 ≤ n ≤ 99 → two_digits (PyStr.zfill 2 n) = true.
Proof.
  intros Hn. apply (forall_below (λ n, two_digits (PyStr.zfill 2 n)) 100); [|lia].
  vm_compute. reflexivity.
Qed.

Lemma strftime_shape (d : datetime) :
  datetime_ok d = true →
  String.length (PyDatetime.strftime d) = 19%nat
  ∧ PyStr.all stamp_char (PyDatetime.strftime d) = true.
Proof.
  unfold datetime_ok. intros Hok. bounds_of_checks.
  assert (∀ c, date_char c = true → stamp_char c = true) as Hsub.
  { intros c Hc. unfold stamp_char. by rewrite Hc. }
  pose proof (zfill_4_digits (year d) ltac:(lia)) as [Hy1 Hy2]%andb_prop.
  pose proof (zfill_2_digits (month d) ltac:(lia)) as [Hm1 Hm2]%andb_prop.
  pose proof (zfill_2_digits (day d) ltac:(lia)) as [Hd1 Hd2]%andb_prop.
  pose proof (zfill_2_digits (hour d) ltac:(lia)) as [Hh1 Hh2]%andb_prop.
  pose proof (zfill_2_digits (minute d) ltac:(lia)) as [Hi1 Hi2]%andb_prop.
  pose proof (zfill_2_digits (second d) ltac:(lia)) as [Hs1 Hs2]%andb_prop.
  apply Nat.eqb_eq in Hy1, Hm1, Hd1, Hh1, Hi1, Hs1.
  unfold PyDatetime.strftime. split.
  - rewrite !length_append, Hy1, Hm1, Hd1, Hh1, Hi1, Hs1. done.
  - rewrite !all_append.
    rewrite (all_impl _ _ _ Hsub Hy2), (all_impl _ _ _ Hsub Hm2), (all_impl _ _ _ Hsub Hd2),
      (all_impl _ _ _ Hsub Hh2), (all_impl _ _ _ Hsub Hi2), (all_impl _ _ _ Hsub Hs2).
    done.
Qed.

(** Month and day of a civil date are in their ranges. *)
Lemma civil_from_days_month_day (days : Z) :
  let '(y, m, d) := PyDatetime.civil_from_days days in
  1 ≤ m ≤ 12 ∧ 1 ≤ d ≤ 31.
Proof.
  unfold PyDatetime.civil_from_days.
  set (z := days + 719468). set (era := z / 146097). set (doe := z - era * 146097).
  assert (0 ≤ doe < 146097) as Hdoe.
  { subst doe era. Z.div_mod_to_equations. lia. }
  clearbody doe.
  set (yoe := (doe - doe / 1460 + doe / 36524 - doe / 146096) / 365).
  set (doy := doe - (365 * yoe + yoe / 4 - yoe / 100)).
  assert (0 ≤ doy ≤ 365) as Hdoy.
  { subst doy yoe. Z.div_mod_to_equations. lia. }
  clearbody doy.
  set (mp := (5 * doy + 2) / 153).
  assert (0 ≤ mp ≤ 11) as Hmp.
  { subst mp. Z.div_mod_to_equations. lia. }
  destruct (mp <? 10) eqn:Hlt; [apply Z.ltb_lt in Hlt | apply Z.ltb_ge in Hlt];
    subst mp; Z.div_mod_to_equations; lia.
Qed.

(** A date [fromtimestamp] returns has its fields in their ranges. *)
Lemma fromtimestamp_ok (offset : Z → Z) (t : Z) (date : datetime) :
  PyDatetime.fromtimestamp offset t = Returns date → datetime_ok date = true.
Proof.
  unfold PyDatetime.fromtimestamp. set (lt := t + offset t).
  pose proof (civil_from_days_month_day (lt / 86400)) as Hmd.
  destruct (PyDatetime.civil_from_days (lt / 86400)) as [[y m] d].
  destruct (PyDatetime.civil_from_days _) as [[probe_y probe_m] probe_d].
  destruct ((1 <=? probe_y) && (1 <=? y) && (y <=? 9999)) eqn:Hy; [|done].
  bounds_of_checks.
  intros [= <-]. unfold datetime_ok. simpl.
  assert (0 ≤ lt mod 86400 < 86400) as Hsod by (apply Z.mod_pos_bound; lia).
  generalize dependent (lt mod 86400). intros sod Hsod.
  repeat (apply andb_true_intro; split); apply Z.leb_le;
    try lia; Z.div_mod_to_equations; lia.
Qed.

Lemma prefix_append (s t : string) : String.prefix s (s +:+ t) = true.
Proof.
  induction s as [|c s IH]; [apply prefix_empty|].
  rewrite append_cons. simpl. by destruct (ascii_dec c c).
Qed.

Lemma len_append (s t : string) : PyStr.len (s +:+ t) = PyStr.len s + PyStr.len t.
Proof. unfold PyStr.len. rewrite length_append. lia. Qed.

Lemma date_char_valid (c : ascii) : date_char c = true → valid_char c = true.
Proof. by destruct c as [[] [] [] [] [] [] [] []]. Qed.

Lemma stamp_char_dashed (c : ascii) :
  stamp_char c = true →
  date_char (if Ascii.eqb ":" (if Ascii.eqb " " c then "-" else c) then "-"
             else if Ascii.eqb " " c then "-" else c)%char = true.
Proof. by destruct c as [[] [] [] [] [] [] [] []]. Qed.

(** The date part of a file name, for a time stamp that gives a date:
    nineteen characters, digits and dashes. *)
Lemma dashed_date_shape (d : datetime) :
  datetime_ok d = true →
  let date_str := PyStr.replace ":" "-" (PyStr.replace " " "-" (PyDatetime.strftime d)) in
  PyStr.len date_str = 19 ∧ PyStr.all date_char date_str = true.
Proof.
  intros Hok date_str. subst date_str.
  destruct (strftime_shape d Hok) as [Hlen Hall].
  rewrite !replace_char. split.
  - unfold PyStr.len. rewrite !length_map, Hlen. done.
  - rewrite !all_map. eapply all_impl; [|exact Hall]. apply stamp_char_dashed.
Qed.

Section FileNames.
Context `{Runtime}.

(** X1. When the time stamp gives a date, the name [get_safe_filename]
    returns is at most 160 characters long, holds none of the characters the
    title is cleaned of, and starts with the whole date part: the title alone
    is cut.  (A date that [fromtimestamp] returns has its fields in range;
    for a text the parser's date is asked to.) *)
Theorem safe_filename_of_a_date (timestamp : timestamp) (title : string) (date : datetime) :
  parse_datetime timestamp = Returns date →
  match timestamp with
  | TsInt _ => True
  | TsStr _ => datetime_ok date = true
  end →
  let date_str := PyStr.replace ":" "-" (PyStr.replace " " "-" (PyDatetime.strftime date)) in
  let name := get_safe_filename timestamp title in
  PyStr.len name ≤ 160
  ∧ PyStr.all valid_char name = true
  ∧ String.prefix (date_str +:+ "--") name = true.
Proof.
  intros Hdate Hok date_str name.
  assert (datetime_ok date = true) as Hok'.
  { destruct timestamp as [n|s]; [|done]. simpl in Hdate. by eapply fromtimestamp_ok. }
  destruct (dashed_date_shape date Hok') as [Hlen Hchars]. fold date_str in Hlen, Hchars.
  assert (PyStr.all valid_char (PyRe.sub_spaces (PyRe.sub_invalid title)) = true) as Htitle.
  { apply sub_spaces_valid, sub_invalid_valid. }
  assert (PyStr.all valid_char date_str = true) as Hdchars.
  { eapply all_impl; [|exact Hchars]. apply date_char_valid. }
  subst name. unfold get_safe_filename.
  rewrite (format_datetime_of_date _ _ Hdate). fold date_str.
  set (safe_title := PyRe.sub_spaces (PyRe.sub_invalid title)) in *.
  unfold MAX_FILENAME_LENGTH.
  destruct (160 <? PyStr.len (date_str +:+ "--" +:+ safe_title)) eqn:Hlong.
  - rewrite Hlen. repeat split.
    + rewrite !len_append, Hlen.
      pose proof (len_slice_to (160 - 19 - 4) safe_title ltac:(lia)).
      change (PyStr.len "--") with 2. lia.
    + rewrite !all_append, Hdchars. simpl. by apply all_slice_to.
    + rewrite <- append_assoc. apply prefix_append.
  - apply Z.ltb_ge in Hlong. repeat split; [done| |].
    + rewrite !all_append, Hdchars. simpl. done.
    + rewrite <- append_assoc. apply prefix_append.
Qed.

End FileNames.

(** X1, witness: an ISO time stamp and a title with a colon, a blank and a
    slash. *)
Lemma safe_filename_of_a_date_witness :
  let date_str := "2024-01-15-10-30-00" in
  let name := @get_safe_filename utc_runtime (TsStr "2024-01-15T10:30:00Z") "a: b/c" in
  PyStr.len name ≤ 160
  ∧ PyStr.all valid_char name = true
  ∧ String.prefix (date_str +:+ "--") name = true.
Proof.
  exact (@safe_filename_of_a_date utc_runtime (TsStr "2024-01-15T10:30:00Z") "a: b/c"
           (mk_datetime 2024 1 15 10 30 0) eq_refl eq_refl).
Defined.

(** ** What the exporter writes and returns *)

Section ExporterClaims.
Context `{Runtime}.

(** C10. For every workspace that [export_workspace] does not skip, the
    summary's [chats] list holds exactly one record per element of the
    workspace's [chatSessions], in source order, whatever the requests of a
    session hold; so its length is the number of chat sessions. *)
Theorem chats_one_record_per_session (workspace : Workspace) (output_dir : string) (w : world) :
  has_sessions workspace = true →
  ∃ d, (export_workspace workspace output_dir w).2 = Some d
       ∧ chats d = chat_record <$> get (chatSessions workspace) []
       ∧ length (chats d) = length (get (chatSessions workspace) []).
Proof.
  intros Hs. exists (summary_of workspace).
  rewrite export_workspace_result, Hs. repeat split.
  simpl. by rewrite length_fmap.
Qed.

(** The summary file is written exactly when the summary is not empty; with
    an empty summary no file is written at all. *)
Lemma export_workspace_files (workspace : Workspace) (output_dir : string) (w : world) :
  has_sessions workspace = true →
  let res := export_workspace workspace output_dir w in
  let d := summary_of workspace in
  if bool_decide (chats d ≠ []) || bool_decide (wd_editingSessions d ≠ [])
  then files res.1 !! json_path_of workspace output_dir = Some (json_dumps d)
  else files res.1 = files w.
Proof.
  intros Hs res d. subst res.
  destruct (export_workspace_world workspace output_dir w Hs) as (w2 & -> & Hw2).
  fold d in Hw2 |- *.
  destruct (bool_decide (chats d ≠ []) || bool_decide (wd_editingSessions d ≠ []))
    eqn:Hne.
  { apply lookup_insert_eq. }
  apply orb_false_elim in Hne as [Hc He].
  apply bool_decide_eq_false in Hc, He.
  apply Hw2; by apply dec_stable.
Qed.

(** C4, as amended. [export_workspace] returns null exactly when the
    workspace has neither chat sessions nor editing sessions, and then it
    leaves the world as it was.  Otherwise it returns the summary, and it
    writes the JSON summary file exactly when the summary holds a chat or an
    editing-session record; with an empty summary no file is written. *)
Theorem export_workspace_null_and_json (workspace : Workspace) (output_dir : string) (w : world) :
  let res := export_workspace workspace output_dir w in
  let d := summary_of workspace in
  if has_sessions workspace then
    res.2 = Some d
    ∧ if bool_decide (chats d ≠ []) || bool_decide (wd_editingSessions d ≠ [])
      then files res.1 !! json_path_of workspace output_dir = Some (json_dumps d)
      else files res.1 = files w
  else res = (w, None).
Proof.
  intros res d. subst res.
  destruct (has_sessions workspace) eqn:Hs.
  - rewrite export_workspace_result, Hs. split; [done|].
    by apply export_workspace_files.
  - by apply export_workspace_skip.
Qed.

(** Every session the loader keeps has content: a chat session has a
    non-empty [requests] list, an editing session a non-empty history. *)
Lemma load_chat_sessions_spec (session_files : list (outcome ChatSession)) :
  Forall (λ s, truthy_list (requests s) = true) (load_chat_sessions session_files).
Proof.
  unfold load_chat_sessions. apply for_in_invariant; [constructor|].
  intros [session_data|e] chat_sessions Hkept; [|done].
  destruct (truthy_list (requests session_data)) eqn:Hs; [|done].
  apply Forall_app; split; [done|]. by constructor.
Qed.

Lemma load_editing_sessions_spec (session_dirs : list SessionDir) :
  Forall (λ s, has_history s = true) (load_editing_sessions session_dirs).
Proof.
  unfold load_editing_sessions. apply for_in_invariant; [constructor|].
  intros session_dir editing_sessions Hkept.
  destruct (is_dir session_dir); [|done].
  destruct (state_json session_dir) as [[state_data|e]|]; try done.
  destruct (truthy_list (linearHistory state_data)) eqn:Hs; [|done].
  apply Forall_app; split; [done|]. by constructor.
Qed.

(** C3, as amended. The exporter skips an editing session whose
    [linearHistory] is absent or empty: no markdown file, no HTML file, no
    summary entry; the world and the summary stay as they were.  For chat
    sessions the filter is the loader's: a workspace it loads holds only chat
    sessions with a non-empty [requests] list and editing sessions with a
    non-empty history. *)
Theorem empty_sessions_skipped
    (editing_session : EditingSession) (workspace : Workspace)
    (workspace_name output_dir : string) (st : world * WorkspaceData)
    (workspace_dir : WorkspaceDir) (loaded : Workspace) :
  truthy_list (linearHistory editing_session) = false →
  load_workspace_data workspace_dir = Some loaded →
  export_editing_session editing_session workspace workspace_name output_dir st = st
  ∧ Forall (λ s, truthy_list (requests s) = true) (get (chatSessions loaded) [])
  ∧ Forall (λ s, truthy_list (linearHistory s) = true) (get (editingSessions loaded) []).
Proof.
  intros Hskip Hload. split; [by apply export_editing_session_skip|].
  unfold load_workspace_data in Hload.
  destruct (workspace_json workspace_dir) as [[info|e]|]; try done.
  match type of Hload with (if ?c then _ else _) = _ => destruct c end; [|done].
  injection Hload as <-. simpl. split.
  - destruct (chatSessions_dir workspace_dir); [apply load_chat_sessions_spec | constructor].
  - destruct (chatEditingSessions_dir workspace_dir);
      [apply load_editing_sessions_spec | constructor].
Qed.




End ExporterClaims.

(** C10, witness: a workspace whose only chat session holds a request
    without text still gets its record. *)
Lemma chats_one_record_per_session_witness :
  ∃ d, (@export_workspace utc_runtime Sample.workspace_blank "out" empty_world).2 = Some d
       ∧ chats d = chat_record <$> [Sample.session_blank]
       ∧ length (chats d) = 1%nat.
Proof.
  exact (@chats_one_record_per_session utc_runtime Sample.workspace_blank "out" empty_world
           eq_refl).
Defined.

(** C4, counterexample: a workspace whose only session is an editing
    session with an empty history is not skipped; nothing is exported for it
    (no file, an empty summary), and the result is the summary, not null. *)
Lemma export_workspace_empty_summary_not_null :
  (@export_workspace utc_runtime Sample.workspace_editing_empty "out" empty_world).2
  = Some {| wd_workspace := "proj"; wd_workspaceInfo := Sample.info_proj;
            chats := []; wd_editingSessions := [] |}
  ∧ files (@export_workspace utc_runtime Sample.workspace_editing_empty "out" empty_world).1
    = ∅.
Proof. split; reflexivity. Qed.

(** C3, witness: an editing session with an empty history, and a workspace
    directory whose loader keeps one chat session and one editing session. *)
Lemma empty_sessions_skipped_witness :
  @export_editing_session utc_runtime Sample.editing_empty Sample.workspace_editing_empty
    "proj" "out" (empty_world, summary_of Sample.workspace_editing_empty)
  = (empty_world, summary_of Sample.workspace_editing_empty)
  ∧ Forall (λ s, truthy_list (requests s) = true) [Sample.session_hi]
  ∧ Forall (λ s, truthy_list (linearHistory s) = true) [Sample.editing_one].
Proof.
  exact (@empty_sessions_skipped utc_runtime Sample.editing_empty
           Sample.workspace_editing_empty "proj" "out"
           (empty_world, summary_of Sample.workspace_editing_empty) Sample.dir_one
           {| workspaceInfo := Sample.info_proj;
              chatSessions := Some [Sample.session_hi];
              editingSessions := Some [Sample.editing_one] |}
           eq_refl eq_refl).
Defined.

(** C3, counterexample: a chat session whose only request holds no text is
    exported all the same: a markdown file, an HTML file and a summary
    record with an empty conversation. *)
Lemma blank_chat_session_exported :
  no_text Sample.request_blank = true
  ∧ (@export_workspace utc_runtime Sample.workspace_blank "out" empty_world).2
    = Some {| wd_workspace := "proj"; wd_workspaceInfo := Sample.info_proj;
              chats := [ {| cr_title := "Chat Session s2"; cr_sessionId := "s2";
                            cr_timestamp := TsStr ""; conversation := [] |} ];
              wd_editingSessions := [] |}
  ∧ files (@export_workspace utc_runtime Sample.workspace_blank "out" empty_world).1
      !! (false, ["out"; "markdown"; "proj"; "--Chat-Session-s2.md"])
    = Some ("# Workspace: /home/u/proj" +:+ PyStr.nl +:+ PyStr.nl +:+
            "## Chat Session s2" +:+ PyStr.nl +:+ PyStr.nl +:+
            "---" +:+ PyStr.nl +:+ PyStr.nl)
  ∧ is_Some (files (@export_workspace utc_runtime Sample.workspace_blank "out" empty_world).1
               !! (false, ["out"; "html"; "proj"; "--Chat-Session-s2.html"])).
Proof.
  split; [reflexivity|]. split; [reflexivity|]. split; [vm_compute; reflexivity|].
  vm_compute. eexists. reflexivity.
Qed.



(** ** The converters *)

Lemma join_empty_cons (x : string) (xs : list string) :
  PyStr.join "" (x :: xs) = x +:+ PyStr.join "" xs.
Proof. destruct xs; [by rewrite append_nil_r | done]. Qed.

(** A loop whose body appends a text for some elements and nothing for the
    others. *)
Lemma for_in_append_filtered {A} (keep : A → bool) (f : A → string) (xs : list A) (acc : string) :
  for_in xs (λ x acc, if keep x then acc +:+ f x else acc) acc
  = acc +:+ PyStr.join "" (f <$> List.filter keep xs).
Proof.
  revert acc. induction xs as [|x xs IH]; intros acc.
  - by rewrite append_nil_r.
  - rewrite for_in_cons, IH. simpl List.filter. destruct (keep x); [|done].
    rewrite fmap_cons, join_empty_cons. by rewrite append_assoc.
Qed.

Lemma markdown_of_change_loop (changes : list Change) (md : string) :
  for_in changes markdown_of_change md
  = md +:+ PyStr.join "" (change_line <$> List.filter has_txt changes).
Proof.
  rewrite <- for_in_append_filtered. apply for_in_ext. intros c acc.
  unfold markdown_of_change, has_txt, change_line.
  destruct (truthy_str (txt c)); [|done]. done.
Qed.




Section RenderClaims.
Context `{Runtime}.

Lemma markdown_of_request_blocks (request : Request) (md : string) :
  markdown_of_request request md
  = md +:+ user_block request +:+ cursor_block request +:+ separator.
Proof.
  unfold markdown_of_request, user_block, cursor_block, separator.
  destruct (truthy_str (message_text request));
    destruct (truthy_list (response request));
    try case_bool_decide; rewrite ?append_assoc; simpl; rewrite ?append_nil_r; done.
Qed.






End RenderClaims.





(** Six changes, each with a text: the first five are written. *)
Example six_full_changes_five_lines :
  PyStr.count "    - Added: `" (markdown_of_post_edit Sample.edit_six_full "") = 5%nat.
Proof. vm_compute. reflexivity. Qed.

(** ** The formatter *)

Section FormatClaims.
Context `{Runtime}.

(** C8, as amended. For a positive number of seconds [s], at most 1e10,
    whose number of milliseconds [ms = 1000 * s] exceeds 1e10, and a local
    zone less than a day away from UTC, [format_datetime] gives the same text
    for [ms] and for [s]: the formatted local date of the instant, nineteen
    characters long. *)
Theorem seconds_and_milliseconds_agree (s ms : Z) :
  (∀ t, -86400 < utcoffset t < 86400) →
  ms = 1000 * s →
  10000000000 < ms →
  s ≤ 10000000000 →
  ∃ date, PyDatetime.fromtimestamp utcoffset s = Returns date
          ∧ format_datetime (TsInt ms) = PyDatetime.strftime date
          ∧ format_datetime (TsInt s) = PyDatetime.strftime date
          ∧ String.length (PyDatetime.strftime date) = 19%nat.
Proof.
  intros Hoff -> Hms Hs.
  destruct (fromtimestamp_returns utcoffset s Hoff) as [date Hdate]; [lia|].
  exists date. split; [done|].
  split; [|split]; [apply format_datetime_of_date; simpl ..|].
  - assert ((10000000000 <? 1000 * s) = true) as -> by (apply Z.ltb_lt; lia).
    replace (1000 * s / 1000) with s; [done|].
    symmetry. rewrite Z.mul_comm. by apply Z.div_mul.
  - assert ((10000000000 <? s) = false) as -> by (apply Z.ltb_ge; lia). done.
  - apply strftime_shape. by eapply fromtimestamp_ok.
Qed.


End FormatClaims.

(** C8, witness: 2024-01-15 10:10:00 UTC, in seconds and in milliseconds. *)
Lemma seconds_and_milliseconds_agree_witness :
  ∃ date, PyDatetime.fromtimestamp (@utcoffset utc_runtime) 1705313400 = Returns date
          ∧ @format_datetime utc_runtime (TsInt 1705313400000) = PyDatetime.strftime date
          ∧ @format_datetime utc_runtime (TsInt 1705313400) = PyDatetime.strftime date
          ∧ String.length (PyDatetime.strftime date) = 19%nat.
Proof.
  apply (@seconds_and_milliseconds_agree utc_runtime 1705313400 1705313400000);
    [intros t; simpl; lia | reflexivity | reflexivity | discriminate].
Defined.

(** C8, counterexample: an instant before 1970.  Its number of seconds is
    formatted; its number of milliseconds, of magnitude above 1e10 but not
    above 1e10 itself, is read as seconds, is out of range, and comes back as
    it was given. *)
Lemma negative_milliseconds_differ :
  @format_datetime utc_runtime (TsInt (-1705313400)) = "1915-12-18 13:50:00"
  ∧ @format_datetime utc_runtime (TsInt (-1705313400000)) = "-1705313400000".
Proof. split; vm_compute; reflexivity. Qed.

(** The formatter on known values. *)
Example format_datetime_known_values :
  @format_datetime utc_runtime (TsInt 1705313400000) = "2024-01-15 10:10:00"
  ∧ @format_datetime utc_runtime (TsInt 1705313400) = "2024-01-15 10:10:00"
  ∧ @format_datetime utc_runtime (TsInt 0) = "1970-01-01 00:00:00"
  ∧ @format_datetime utc_runtime (TsInt 253402300799) = "1978-01-11 21:31:40"
  ∧ @format_datetime utc_runtime (TsInt (-62135596800)) = "-62135596800"
  ∧ @format_datetime utc_runtime (TsStr "2024-01-15T10:30:00Z") = "2024-01-15 10:30:00"
  ∧ @format_datetime utc_runtime (TsStr "2024-01-15T10:30:00.123Z") = "2024-01-15 10:30:00"
  ∧ @format_datetime utc_runtime (TsStr "2024-01-15T10:30") = "2024-01-15 10:30:00"
  ∧ @format_datetime utc_runtime (TsStr "2024-01-15") = "2024-01-15 00:00:00"
  ∧ @format_datetime utc_runtime (TsStr "not a date") = "not a date"
  ∧ @format_datetime utc_runtime (TsStr "") = "".
Proof. repeat split; vm_compute; reflexivity. Qed.

(** ** File names *)

(** C5, the failing inputs. A time stamp that is a text and no date comes
    back from [format_datetime] as it is, and [get_safe_filename] cleans the
    title only: the slash of the time stamp stays in the name, and a long
    time stamp makes a name of more than 160 characters. *)
Lemma safe_filename_keeps_raw_timestamp :
  @get_safe_filename utc_runtime (TsStr "a/b") "x" = "a/b--x"
  ∧ PyStr.all (λ c, negb (PyRe.invalid_char c))
      (@get_safe_filename utc_runtime (TsStr "a/b") "x") = false
  ∧ PyStr.len (@get_safe_filename utc_runtime (TsStr (PyStr.zeros 200)) "x") = 202.
Proof. repeat split; vm_compute; reflexivity. Qed.

(** ** Workspace names *)

(** Without a folder the name is the literal, whatever the id. *)
Lemma workspace_name_without_folder (workspace : Workspace) :
  truthy_str (wi_folder (workspaceInfo workspace)) = false →
  workspace_name_of workspace = "Unknown".
Proof.
  unfold workspace_name_of. destruct (wi_folder (workspaceInfo workspace)) as [[|c f]|]; done.
Qed.

(** C6, the failing input. A workspace with an id and no folder is named by
    the literal, not by its id, although the header of its documents shows
    the id. *)
Lemma workspace_name_ignores_id :
  wi_id (workspaceInfo Sample.workspace_id_only) = Some "ws-1"
  ∧ workspace_name_of Sample.workspace_id_only = "Unknown"
  ∧ workspace_header (workspaceInfo Sample.workspace_id_only)
    = "# Workspace: ws-1" +:+ PyStr.nl +:+ PyStr.nl.
Proof. repeat split. Qed.

(** ** The documents and the summary, in full *)

Lemma for_in_append_join {A} (f : A → string) (xs : list A) (acc : string) :
  for_in xs (λ x acc, acc +:+ f x) acc = acc +:+ PyStr.join "" (f <$> xs).
Proof.
  revert acc. induction xs as [|x xs IH]; intros acc.
  - by rewrite append_nil_r.
  - rewrite for_in_cons, IH, fmap_cons, join_empty_cons. by rewrite append_assoc.
Qed.

Section Documents.
Context `{Runtime}.

(** X2. The document of a chat session: the workspace header, the creation line
    if the session has a creation date, the title, then for each request, in
    order, its User block, its Cursor block and a separator. *)
Theorem chat_document_layout (session : ChatSession) (workspace_info : WorkspaceInfo) :
  convert_cursor_session_to_markdown session workspace_info
  = workspace_header workspace_info
    +:+ (if truthy_timestamp (creationDate session)
         then "Created: " +:+ format_datetime (get (creationDate session) (TsStr ""))
                +:+ PyStr.nl +:+ PyStr.nl
         else "")
    +:+ "## " +:+ chat_title session +:+ PyStr.nl +:+ PyStr.nl
    +:+ PyStr.join ""
          ((λ request, user_block request +:+ cursor_block request +:+ separator)
             <$> get (requests session) []).
Proof.
  unfold convert_cursor_session_to_markdown.
  destruct (truthy_list (requests session)) eqn:Hrs.
  - rewrite (for_in_ext markdown_of_request
               (λ request md,
                  md +:+ (user_block request +:+ cursor_block request +:+ separator)))
      by apply markdown_of_request_blocks.
    rewrite for_in_append_join.
    destruct (truthy_timestamp (creationDate session)); by rewrite !append_assoc.
  - rewrite (truthy_list_false _ Hrs). simpl. rewrite append_nil_r.
    destruct (truthy_timestamp (creationDate session)); by rewrite ?append_assoc.
Qed.

(** X3. The summary keeps the source order of both lists: its chats are the
    records of the chat sessions, its editing sessions the records of the
    editing sessions that have a history, each with the length of that
    history as its edit count. *)
Theorem summary_in_source_order (workspace : Workspace) (output_dir : string) (w : world) :
  (export_workspace workspace output_dir w).2
  = (if has_sessions workspace then Some (summary_of workspace) else None)
  ∧ chats (summary_of workspace) = chat_record <$> get (chatSessions workspace) []
  ∧ wd_editingSessions (summary_of workspace)
    = editing_record <$> List.filter has_history (get (editingSessions workspace) [])
  ∧ ∀ editing_session,
      editCount (editing_record editing_session)
      = length (get (linearHistory editing_session) []).
Proof. split; [apply export_workspace_result | done]. Qed.

(** X4. [export_all_workspaces] returns one result per workspace, in order: the
    summary, or null for a workspace without sessions. *)
Theorem one_result_per_workspace
    (chat_history : list Workspace) (output_dir : string) (w : world) :
  (export_all_workspaces chat_history output_dir w).2
  = (λ workspace, if has_sessions workspace then Some (summary_of workspace) else None)
      <$> chat_history.
Proof.
  unfold export_all_workspaces.
  set (result_of := λ workspace : Workspace,
         if has_sessions workspace then Some (summary_of workspace) else None).
  assert (∀ history w0 results,
            (for_in history
               (λ workspace '(w, results),
                  let '(w, workspace_data) := export_workspace workspace output_dir w in
                  (w, results ++ [workspace_data]))
               (w0, results)).2
            = results ++ (result_of <$> history)) as Hloop.
  { induction history as [|workspace rest IH]; intros w0 results.
    - simpl. by rewrite app_nil_r.
    - rewrite for_in_cons.
      pose proof (export_workspace_result workspace output_dir w0) as Hres.
      destruct (export_workspace workspace output_dir w0) as [w1 r].
      simpl in Hres. subst r. rewrite IH. rewrite <- app_assoc. done. }
  apply Hloop.
Qed.

End Documents.

(** The round trip of the specification: Hi, then Hello. *)
Example markdown_of_hi_hello :
  @convert_cursor_session_to_markdown utc_runtime Sample.session_hi Sample.info_proj
  = "# Workspace: /home/u/proj" +:+ PyStr.nl +:+ PyStr.nl
    +:+ "Created: 2024-01-15 10:10:00" +:+ PyStr.nl +:+ PyStr.nl
    +:+ "## Chat Session s1" +:+ PyStr.nl +:+ PyStr.nl
    +:+ "**User**:" +:+ PyStr.nl +:+ PyStr.nl +:+ "Hi" +:+ PyStr.nl +:+ PyStr.nl
    +:+ "**Cursor**:" +:+ PyStr.nl +:+ PyStr.nl +:+ "Hello" +:+ PyStr.nl +:+ PyStr.nl
    +:+ "---" +:+ PyStr.nl +:+ PyStr.nl.
Proof. vm_compute. reflexivity. Qed.

(** ** The exporter as a list of effects *)

Lemma run_nil (w : world) : run [] w = w.
Proof. reflexivity. Qed.

Lemma run_cons (e : effect) (effects : list effect) (w : world) :
  run (e :: effects) w = run effects (run_effect e w).
Proof. reflexivity. Qed.

Lemma run_app (effects1 effects2 : list effect) (w : world) :
  run (effects1 ++ effects2) w = run effects2 (run effects1 w).
Proof. unfold run, for_in. apply fold_left_app. Qed.

(** A file of the world after the effects: the last text written there, or
    the file as it was. *)
Lemma files_run (effects : list effect) (w : world) (p : path) :
  files (run effects w) !! p
  = match written effects p with
    | Some content => Some content
    | None => files w !! p
    end.
Proof.
  revert w. induction effects as [|e effects IH]; intros w; [done|].
  rewrite run_cons, IH. simpl. destruct (written effects p); [done|].
  destruct e as [q|q content]; simpl; [done|].
  destruct (decide (q = p)) as [->|Hne].
  - apply lookup_insert_eq.
  - by apply lookup_insert_ne.
Qed.

(** The directories after the effects: those there before, and those made. *)
Lemma dirs_run (effects : list effect) (w : world) :
  dirs (run effects w) = dirs w ∪ made effects.
Proof.
  revert w. induction effects as [|e effects IH]; intros w.
  - simpl. by rewrite union_empty_r_L.
  - rewrite run_cons, IH. destruct e; simpl; [|done]. by rewrite (assoc_L (∪)).
Qed.

Lemma world_eq (w1 w2 : world) : files w1 = files w2 → dirs w1 = dirs w2 → w1 = w2.
Proof. destruct w1, w2; simpl; by intros -> ->. Qed.

Lemma written_app (effects1 effects2 : list effect) (p : path) :
  written (effects1 ++ effects2) p
  = match written effects2 p with
    | Some content => Some content
    | None => written effects1 p
    end.
Proof.
  induction effects1 as [|e effects1 IH]; simpl.
  - by destruct (written effects2 p).
  - rewrite IH. by destruct (written effects2 p).
Qed.

Lemma made_app (effects1 effects2 : list effect) :
  made (effects1 ++ effects2) = made effects1 ∪ made effects2.
Proof.
  induction effects1 as [|[q|q content] effects1 IH]; simpl; rewrite ?IH.
  - by rewrite union_empty_l_L.
  - by rewrite (assoc_L (∪)).
  - done.
Qed.

(** Running the same effects again changes nothing. *)
Lemma run_twice (effects : list effect) (w : world) :
  run effects (run effects w) = run effects w.
Proof.
  apply world_eq.
  - apply map_eq. intros p. rewrite !files_run. by destruct (written effects p).
  - rewrite !dirs_run. by rewrite <- (assoc_L (∪)), union_idemp_L.
Qed.

Section EffectsOfTheExporter.
Context `{Runtime}.

Lemma export_chat_session_run session workspace workspace_name output_dir w d :
  export_chat_session session workspace workspace_name output_dir (w, d)
  = (run (chat_session_effects session workspace workspace_name output_dir) w,
     append_chat (chat_record session) d).
Proof. reflexivity. Qed.

Lemma export_editing_session_run editing_session workspace workspace_name output_dir w d :
  export_editing_session editing_session workspace workspace_name output_dir (w, d)
  = (run (editing_session_effects editing_session workspace workspace_name output_dir) w,
     if has_history editing_session
     then append_editing (editing_record editing_session) d else d).
Proof.
  unfold export_editing_session, editing_session_effects, has_history.
  by destruct (truthy_list (linearHistory editing_session)).
Qed.

(** The world after a loop whose turns run effects. *)
Lemma for_in_run {A D} (xs : list A) (effects_of : A → list effect)
    (body : A → world * D → world * D) (st : world * D) :
  (∀ x w d, (body x (w, d)).1 = run (effects_of x) w) →
  (for_in xs body st).1 = run (mjoin (effects_of <$> xs)) st.1.
Proof.
  intros Hbody. revert st. induction xs as [|x xs IH]; intros [w d]; [done|].
  rewrite for_in_cons, IH. simpl. rewrite run_app.
  f_equal. rewrite <- (Hbody x w d). done.
Qed.

(** [export_workspace], in full: the effects on the world and the result. *)
Lemma export_workspace_run (workspace : Workspace) (output_dir : string) (w : world) :
  export_workspace workspace output_dir w
  = (run (workspace_effects workspace output_dir) w, result_of workspace).
Proof.
  apply injective_projections; cbn [fst snd]; [|apply export_workspace_result].
  unfold workspace_effects. destruct (has_sessions workspace) eqn:Hs.
  2:{ by rewrite export_workspace_skip. }
  pose proof (export_workspace_result workspace output_dir w) as Hr. rewrite Hs in Hr.
  unfold export_workspace in *.
  assert (negb (truthy_list (chatSessions workspace))
          && negb (truthy_list (editingSessions workspace)) = false) as Hskip.
  { unfold has_sessions in Hs.
    by destruct (truthy_list (chatSessions workspace)),
                (truthy_list (editingSessions workspace)). }
  rewrite Hskip in Hr |- *. cbv zeta in Hr |- *.
  set (name := workspace_name_of workspace) in *.
  set (w0 := for_in ["html"; "markdown"] _ w) in *.
  set (d0 := {| wd_workspace := name; wd_workspaceInfo := workspaceInfo workspace;
                chats := []; wd_editingSessions := [] |}) in *.
  set (st_c := if truthy_list (chatSessions workspace) then _ else (w0, d0)) in *.
  set (st_e := if truthy_list (editingSessions workspace) then _ else st_c) in *.
  assert (st_c.1
          = run (mjoin ((λ session,
                           chat_session_effects session workspace name output_dir)
                          <$> get (chatSessions workspace) [])) w0) as Hchat.
  { subst st_c. destruct (truthy_list (chatSessions workspace)) eqn:Hc.
    - rewrite (for_in_run _
                 (λ session, chat_session_effects session workspace name output_dir)).
      + done.
      + intros s w1 d1. by rewrite export_chat_session_run.
    - by rewrite (truthy_list_false _ Hc). }
  assert (st_e.1
          = run (mjoin ((λ editing_session,
                           editing_session_effects editing_session workspace name
                             output_dir)
                          <$> get (editingSessions workspace) [])) st_c.1) as Hedit.
  { subst st_e. destruct (truthy_list (editingSessions workspace)) eqn:He.
    - rewrite (for_in_run _
                 (λ editing_session,
                    editing_session_effects editing_session workspace name output_dir)).
      + done.
      + intros s w1 d1. by rewrite export_editing_session_run.
    - by rewrite (truthy_list_false _ He). }
  clearbody st_e st_c. destruct st_e as [w' d']. cbn [fst snd] in *.
  injection Hr as ->.
  change (Mkdir (PyPath.Path output_dir // "html" // name)
          :: Mkdir (PyPath.Path output_dir // "markdown" // name) :: ?rest)
    with ([Mkdir (PyPath.Path output_dir // "html" // name);
           Mkdir (PyPath.Path output_dir // "markdown" // name)] ++ rest).
  rewrite !run_app. change (run [Mkdir _; Mkdir _] w) with w0.
  rewrite ?run_nil. rewrite <- Hchat, <- Hedit.
  by destruct (bool_decide _ || bool_decide _).
Qed.

(** [export_all_workspaces], in full. *)
Lemma export_all_workspaces_run
    (chat_history : list Workspace) (output_dir : string) (w : world) :
  export_all_workspaces chat_history output_dir w
  = (run (history_effects chat_history output_dir) w, result_of <$> chat_history).
Proof.
  unfold export_all_workspaces, history_effects. rewrite run_app.
  change (create_export_directories output_dir w)
    with (run (directories_effects output_dir) w).
  generalize (run (directories_effects output_dir) w). intros w0.
  assert (∀ history w0 results,
            for_in history
              (λ workspace '(w, results),
                 let '(w, workspace_data) := export_workspace workspace output_dir w in
                 (w, results ++ [workspace_data]))
              (w0, results)
            = (run (mjoin ((λ workspace, workspace_effects workspace output_dir)
                             <$> history)) w0,
               results ++ (result_of <$> history))) as Hloop.
  { induction history as [|workspace rest IH]; intros w1 results.
    - simpl. by rewrite app_nil_r.
    - rewrite for_in_cons, export_workspace_run, IH. simpl.
      by rewrite run_app, <- app_assoc. }
  apply Hloop.
Qed.

End EffectsOfTheExporter.

(** ** Paths of the documents *)

Lemma rev_app_append (s t u : string) :
  String.rev_app s t +:+ u = String.rev_app s (t +:+ u).
Proof. revert t. induction s as [|c s IH]; intros t; simpl; [done|]. by rewrite IH. Qed.

(** A text without the separator is one piece. *)
Lemma split_go_no_sep (sep : ascii) (e cur : string) :
  PyStr.all (λ c, negb (Ascii.eqb c sep)) e = true →
  PyStr.split_go sep cur e = [String.rev cur +:+ e].
Proof.
  revert cur. induction e as [|c e IH]; intros cur He; simpl in *.
  - by rewrite append_nil_r.
  - apply andb_prop in He as [Hc He]. apply negb_true_iff in Hc. rewrite Hc.
    rewrite IH by done. unfold String.rev. simpl. by rewrite !rev_app_append.
Qed.

(** Text added after the last separator goes to the last piece. *)
Lemma split_go_append (sep : ascii) (f e cur : string) :
  PyStr.all (λ c, negb (Ascii.eqb c sep)) e = true →
  ∃ l x, PyStr.split_go sep cur f = l ++ [x]
         ∧ PyStr.split_go sep cur (f +:+ e) = l ++ [x +:+ e].
Proof.
  intros He. revert cur. induction f as [|c f IH]; intros cur.
  - exists [], (String.rev cur). split; [done|].
    change ("" +:+ e) with e. by apply split_go_no_sep.
  - rewrite append_cons. simpl. destruct (Ascii.eqb c sep).
    + destruct (IH "") as (l & x & -> & ->). by exists (String.rev cur :: l), x.
    + apply IH.
Qed.

Lemma all_rev_app (p : ascii → bool) (s t : string) :
  PyStr.all p (String.rev_app s t) = PyStr.all p s && PyStr.all p t.
Proof.
  revert t. induction s as [|c s IH]; intros t; simpl; [done|].
  rewrite IH. simpl. destruct (p c), (PyStr.all p s); done.
Qed.

(** The pieces hold no separator. *)
Lemma split_go_pieces (sep : ascii) (s cur : string) :
  PyStr.all (λ c, negb (Ascii.eqb c sep)) cur = true →
  Forall (λ x, PyStr.all (λ c, negb (Ascii.eqb c sep)) x = true) (PyStr.split_go sep cur s).
Proof.
  revert cur. induction s as [|c s IH]; intros cur Hcur; simpl.
  - constructor; [|done]. unfold String.rev. by rewrite all_rev_app, Hcur.
  - destruct (Ascii.eqb c sep) eqn:Hc.
    + constructor; [|by apply IH]. unfold String.rev. by rewrite all_rev_app, Hcur.
    + apply IH. simpl. by rewrite Hc, Hcur.
Qed.

Lemma keep_part_long (s : string) : (2 ≤ String.length s)%nat → PyPath.keep_part s = true.
Proof.
  destruct s as [|a [|b r]]; simpl; try lia. intros _.
  unfold PyPath.keep_part. simpl. by case_match.
Qed.

Lemma startswith_slash (s : string) : no_slash s = true → PyStr.startswith s "/" = false.
Proof.
  destruct s as [|c s]; [done|]. unfold no_slash, PyStr.startswith.
  cbn [PyStr.all String.prefix]. intros [Hc _]%andb_prop. apply negb_true_iff, Ascii.eqb_neq in Hc.
  destruct (ascii_dec "/" c); [congruence | done].
Qed.

(** [p / (f + e)], for an extension [e]: the name ends with [e], whatever
    [f] holds. *)
Lemma joinpath_extension (p : path) (f e : string) :
  no_slash e = true → (2 ≤ String.length e)%nat →
  ∃ anchor above x, p // (f +:+ e) = (anchor, above ++ [x +:+ e]).
Proof.
  intros He Hlen. unfold PyPath.joinpath, PyPath.Path, PyPath.parts_of, PyStr.split.
  destruct (split_go_append "/" f e "" He) as (l & x & _ & ->).
  rewrite List.filter_app. simpl.
  rewrite keep_part_long by (rewrite length_append; lia).
  destruct (PyStr.startswith (f +:+ e) "/").
  - by eexists _, _, _.
  - rewrite app_assoc. by eexists _, _, _.
Qed.

Lemma last_char_append (x e : string) : e ≠ "" → last_char (x +:+ e) = last_char e.
Proof.
  intros He. induction x as [|c x IH]; [done|].
  rewrite append_cons. simpl. destruct (x +:+ e) eqn:Hxe; [|done].
  destruct x; [|done]. by change ("" +:+ e) with e in Hxe.
Qed.

Lemma name_snoc (anchor : bool) (above : list string) (x : string) :
  PyPath.name (anchor, above ++ [x]) = x.
Proof. unfold PyPath.name. simpl. apply List.last_last. Qed.

Lemma parent_snoc (anchor : bool) (above : list string) (x : string) :
  PyPath.parent (anchor, above ++ [x]) = (anchor, above).
Proof. unfold PyPath.parent. simpl. by rewrite List.removelast_last. Qed.

(** The last character of the name of [p / (f + e)] is that of [e]. *)
Lemma last_char_joinpath (p : path) (f e : string) :
  no_slash e = true → (2 ≤ String.length e)%nat →
  last_char (PyPath.name (p // (f +:+ e))) = last_char e.
Proof.
  intros He Hlen. destruct (joinpath_extension p f e He Hlen) as (a & l & x & ->).
  rewrite name_snoc. apply last_char_append. intros ->. simpl in Hlen. lia.
Qed.

(** [p / s] for a name [s] without a slash, other than the empty name and
    the dot: one more part. *)
Lemma joinpath_name (p : path) (s : string) :
  no_slash s = true → (2 ≤ String.length s)%nat → p // s = (p.1, p.2 ++ [s]).
Proof.
  intros Hs Hlen. unfold PyPath.joinpath, PyPath.parts_of, PyStr.split.
  rewrite startswith_slash by done. rewrite split_go_no_sep by done. simpl.
  by rewrite keep_part_long.
Qed.

(** A directory that has parts is among those [mkdir] makes for it. *)
Lemma with_parents_self (p : path) : p.2 ≠ [] → p ∈ PyPath.with_parents p.
Proof.
  destruct p as [anchor l]. simpl. intros Hl. unfold PyPath.with_parents. simpl.
  apply list_elem_of_fmap. exists (length l). split.
  - by rewrite firstn_all.
  - apply elem_of_seq. destruct l; [done | simpl; lia].
Qed.

(** The name [export_workspace] gives a workspace holds no slash. *)
Lemma workspace_name_no_slash (workspace : Workspace) :
  no_slash (workspace_name_of workspace) = true.
Proof.
  unfold workspace_name_of.
  set (folder := if PyStr.startswith _ _ then _ else _). clearbody folder.
  destruct (PyStr.nonempty folder); [|done].
  unfold PyPath.name, PyPath.Path, PyPath.parts_of, PyStr.split. simpl.
  assert (Forall (λ x, no_slash x = true)
            (List.filter PyPath.keep_part (PyStr.split_go "/" "" folder))) as Hall.
  { pose proof (split_go_pieces "/" folder "" eq_refl) as Hpieces.
    induction Hpieces as [|x l Hx Hl IH]; simpl; [done|].
    destruct (PyPath.keep_part x); [by constructor | done]. }
  induction Hall as [|x l Hx Hl IH]; [done|]. destruct l; [done|]. apply IH.
Qed.

(** The summary of a workspace lies in the [json] directory itself. *)
Lemma json_path_parent (workspace : Workspace) (output_dir : string) :
  json_path_of workspace output_dir
  = ((PyPath.Path output_dir // "json").1,
     (PyPath.Path output_dir // "json").2 ++ [workspace_name_of workspace +:+ ".json"]).
Proof.
  unfold json_path_of. apply joinpath_name.
  - unfold no_slash. rewrite all_append. fold (no_slash (workspace_name_of workspace)).
    by rewrite workspace_name_no_slash.
  - rewrite length_append. simpl. lia.
Qed.

(** ** What the exporter leaves in the world *)

Lemma written_elem (effects : list effect) (p : path) (content : string) :
  WriteText p content ∈ effects → is_Some (written effects p).
Proof.
  induction effects as [|e effects IH]; [by intros ?%elem_of_nil|].
  intros [<-|Hin]%elem_of_cons; simpl.
  - destruct (written effects p); [done|]. by rewrite decide_True.
  - destruct (IH Hin) as [c ->]. done.
Qed.

Lemma files_run_elem (effects : list effect) (w : world) (p : path) (content : string) :
  WriteText p content ∈ effects → is_Some (files (run effects w) !! p).
Proof.
  intros [c Hc]%written_elem. rewrite files_run, Hc. done.
Qed.

(** Nothing that was there goes away. *)
Lemma files_run_keeps (effects : list effect) (w : world) (p : path) :
  is_Some (files w !! p) → is_Some (files (run effects w) !! p).
Proof. intros Hp. rewrite files_run. by destruct (written effects p). Qed.

Lemma made_mjoin_elem {A} (effects_of : A → list effect) (x : A) (xs : list A) :
  x ∈ xs → made (effects_of x) ⊆ made (mjoin (effects_of <$> xs)).
Proof.
  induction xs as [|y xs IH]; [by intros ?%elem_of_nil|].
  rewrite fmap_cons. cbn [mjoin list_join]. rewrite made_app.
  intros [->|Hin]%elem_of_cons; [apply union_subseteq_l|].
  etrans; [by apply IH | apply union_subseteq_r].
Qed.

Lemma prepared_mono (D1 D2 : gset path) (effects : list effect) :
  D1 ⊆ D2 → prepared D1 effects → prepared D2 effects.
Proof.
  revert D1 D2. induction effects as [|[p|p content] effects IH]; intros D1 D2 HD; simpl.
  - done.
  - apply IH. by apply union_mono_r.
  - intros [[Hp|Hp] Hrest]; (split; [|by eapply IH]); [by left | right; by apply HD].
Qed.





Lemma joinpath_parts (p : path) (s : string) :
  p.2 ≠ [] → no_slash s = true → (p // s).2 ≠ [].
Proof.
  intros Hp Hs. unfold PyPath.joinpath. rewrite startswith_slash by done. simpl.
  destruct p as [a [|x l]]; done.
Qed.

Lemma format_directory (output_dir format_name : string) :
  no_slash format_name = true → (2 ≤ String.length format_name)%nat →
  (PyPath.Path output_dir // format_name).2 ≠ [].
Proof.
  intros Hf Hlen. rewrite joinpath_name by done. simpl.
  by destruct (PyPath.parts_of output_dir).
Qed.

(** The files after a directory and a file, twice: the two files hold
    their texts, every other file is as it was. *)
Lemma two_documents_world (p1 p2 d1 d2 : path) (c1 c2 : string) (w : world) :
  p1 ≠ p2 →
  let w' := run [Mkdir d1; WriteText p1 c1; Mkdir d2; WriteText p2 c2] w in
  files w' !! p1 = Some c1
  ∧ files w' !! p2 = Some c2
  ∧ ∀ q, q ≠ p1 → q ≠ p2 → files w' !! q = files w !! q.
Proof.
  intros Hne w'. subst w'. split; [|split]; [| |intros q Hq1 Hq2]; rewrite files_run; simpl.
  - by rewrite decide_False, decide_True.
  - by rewrite decide_True.
  - by rewrite !decide_False.
Qed.

(** Two documents of different extensions lie at different paths. *)
Lemma documents_differ (p1 p2 : path) (f1 f2 e1 e2 : string) :
  no_slash e1 = true → (2 ≤ String.length e1)%nat →
  no_slash e2 = true → (2 ≤ String.length e2)%nat →
  last_char e1 ≠ last_char e2 →
  p1 // (f1 +:+ e1) ≠ p2 // (f2 +:+ e2).
Proof.
  intros Hs1 Hl1 Hs2 Hl2 Hne Heq. apply Hne.
  rewrite <- (last_char_joinpath p1 f1 e1), <- (last_char_joinpath p2 f2 e2) by done.
  by rewrite Heq.
Qed.

Section WorldOfTheExporter.
Context `{Runtime}.

Lemma workspace_effects_chat workspace output_dir session e :
  session ∈ get (chatSessions workspace) [] →
  e ∈ chat_session_effects session workspace (workspace_name_of workspace) output_dir →
  e ∈ workspace_effects workspace output_dir.
Proof.
  intros Hs He. unfold workspace_effects.
  destruct (has_sessions workspace) eqn:Hhas.
  - cbv zeta. apply elem_of_app. right. apply elem_of_app. left.
    apply list_elem_of_join. eexists. split; [exact He|].
    by apply (list_elem_of_fmap_2
                (λ session, chat_session_effects session workspace
                              (workspace_name_of workspace) output_dir)).
  - apply orb_false_elim in Hhas as [Hc _]. rewrite (truthy_list_false _ Hc) in Hs.
    by apply elem_of_nil in Hs.
Qed.

Lemma workspace_effects_editing workspace output_dir editing_session e :
  editing_session ∈ get (editingSessions workspace) [] →
  e ∈ editing_session_effects editing_session workspace (workspace_name_of workspace)
        output_dir →
  e ∈ workspace_effects workspace output_dir.
Proof.
  intros Hs He. unfold workspace_effects.
  destruct (has_sessions workspace) eqn:Hhas.
  - cbv zeta. apply elem_of_app. right. apply elem_of_app. right. apply elem_of_app. left.
    apply list_elem_of_join. eexists. split; [exact He|].
    by apply (list_elem_of_fmap_2
                (λ editing_session,
                   editing_session_effects editing_session workspace
                     (workspace_name_of workspace) output_dir)).
  - apply orb_false_elim in Hhas as [_ He']. rewrite (truthy_list_false _ He') in Hs.
    by apply elem_of_nil in Hs.
Qed.

(** A summary that is not empty comes from a workspace that has sessions. *)
Lemma summary_has_sessions workspace :
  chats (summary_of workspace) ≠ [] ∨ wd_editingSessions (summary_of workspace) ≠ [] →
  has_sessions workspace = true.
Proof.
  unfold has_sessions, summary_of. simpl.
  destruct (chatSessions workspace) as [[|??]|], (editingSessions workspace) as [[|??]|];
    simpl; intros [?|?]; done.
Qed.

Lemma summary_not_empty workspace :
  chats (summary_of workspace) ≠ [] ∨ wd_editingSessions (summary_of workspace) ≠ [] →
  bool_decide (chats (summary_of workspace) ≠ [])
  || bool_decide (wd_editingSessions (summary_of workspace) ≠ []) = true.
Proof.
  intros [Hc|He]; apply orb_true_iff; [left | right]; by apply bool_decide_eq_true.
Qed.

(** The last effect on a workspace with a summary writes the summary. *)
Lemma workspace_effects_json workspace output_dir :
  chats (summary_of workspace) ≠ [] ∨ wd_editingSessions (summary_of workspace) ≠ [] →
  ∃ effects,
    workspace_effects workspace output_dir
    = effects ++ [WriteText (json_path_of workspace output_dir)
                    (json_dumps (summary_of workspace))].
Proof.
  intros Hd. unfold workspace_effects.
  rewrite (summary_has_sessions _ Hd). cbv zeta. rewrite (summary_not_empty _ Hd).
  rewrite !app_assoc. by eexists.
Qed.

Lemma history_effects_workspace chat_history output_dir workspace e :
  workspace ∈ chat_history →
  e ∈ workspace_effects workspace output_dir →
  e ∈ history_effects chat_history output_dir.
Proof.
  intros Hw He. unfold history_effects. apply elem_of_app. right.
  apply list_elem_of_join. eexists. split; [exact He|].
  by apply (list_elem_of_fmap_2 (λ workspace, workspace_effects workspace output_dir)).
Qed.




Lemma directories_effects_made (output_dir format_name : string) :
  format_name ∈ ["html"; "markdown"; "json"] →
  PyPath.Path output_dir // format_name ∈ made (directories_effects output_dir).
Proof.
  intros Hf. unfold directories_effects. simpl.
  assert (no_slash format_name = true ∧ (2 ≤ String.length format_name)%nat) as [Hs Hl].
  { repeat (apply elem_of_cons in Hf as [->|Hf]; [split; [done | simpl; lia]|]).
    by apply elem_of_nil in Hf. }
  assert (PyPath.Path output_dir // format_name
          ∈@{gset path} list_to_set (PyPath.with_parents (PyPath.Path output_dir // format_name)))
    as Hself.
  { apply elem_of_list_to_set, with_parents_self. by apply format_directory. }
  apply elem_of_union_r.
  apply elem_of_cons in Hf as [->|Hf]; [by apply elem_of_union_l|]. apply elem_of_union_r.
  apply elem_of_cons in Hf as [->|Hf]; [by apply elem_of_union_l|]. apply elem_of_union_r.
  apply elem_of_cons in Hf as [->|Hf]; [by apply elem_of_union_l|].
  by apply elem_of_nil in Hf.
Qed.


(** X5. Exporting the same history to the same directory a second time
    changes nothing: the world and the results are those of the first run. *)
Theorem export_twice_is_export_once
    (chat_history : list Workspace) (output_dir : string) (w : world) :
  export_all_workspaces chat_history output_dir
    (export_all_workspaces chat_history output_dir w).1
  = export_all_workspaces chat_history output_dir w.
Proof. rewrite !export_all_workspaces_run. cbn [fst]. by rewrite run_twice. Qed.


(** X7. [export_all_workspaces] removes nothing: the directories and the
    files that were there are there afterwards.  It makes the directories
    [html], [markdown] and [json] of the output directory, and in the first
    two a directory for every workspace that has a session. *)
Theorem export_keeps_and_creates
    (chat_history : list Workspace) (output_dir : string) (w : world) :
  let w' := (export_all_workspaces chat_history output_dir w).1 in
  dirs w ⊆ dirs w'
  ∧ (∀ p, is_Some (files w !! p) → is_Some (files w' !! p))
  ∧ Forall (λ format_name, PyPath.Path output_dir // format_name ∈ dirs w')
      ["html"; "markdown"; "json"]
  ∧ Forall (λ workspace,
              has_sessions workspace = true →
              Forall (λ format_name,
                        PyPath.Path output_dir // format_name // workspace_name_of workspace
                        ∈ dirs w')
                ["html"; "markdown"])
      chat_history.
Proof.
  intros w'. subst w'. rewrite export_all_workspaces_run. cbn [fst].
  split; [|split; [|split]].
  - rewrite dirs_run. apply union_subseteq_l.
  - intros p. apply files_run_keeps.
  - apply Forall_forall. intros format_name Hf. rewrite dirs_run.
    apply elem_of_union_r. unfold history_effects. rewrite made_app.
    by apply elem_of_union_l, directories_effects_made.
  - apply Forall_forall. intros workspace Hw Hhas.
    apply Forall_forall. intros format_name Hf. rewrite dirs_run.
    apply elem_of_union_r. unfold history_effects. rewrite made_app. apply elem_of_union_r.
    apply (made_mjoin_elem (λ workspace, workspace_effects workspace output_dir)
             workspace chat_history Hw).
    unfold workspace_effects. rewrite Hhas. cbv zeta. rewrite made_app.
    apply elem_of_union_l. simpl.
    assert (∀ format_name,
              format_name ∈ ["html"; "markdown"] →
              PyPath.Path output_dir // format_name // workspace_name_of workspace
              ∈@{gset path}
                list_to_set
                  (PyPath.with_parents
                     (PyPath.Path output_dir // format_name // workspace_name_of workspace)))
      as Hself.
    { intros f Hin. apply elem_of_list_to_set, with_parents_self.
      apply joinpath_parts; [|apply workspace_name_no_slash].
      apply format_directory;
        repeat (apply elem_of_cons in Hin as [->|Hin]; [done || (simpl; lia)|]);
        by apply elem_of_nil in Hin. }
    pose proof (Hself format_name Hf) as Hin.
    apply elem_of_cons in Hf as [->|Hf]; [by apply elem_of_union_l|]. apply elem_of_union_r.
    apply elem_of_cons in Hf as [->|Hf]; [by apply elem_of_union_l|].
    by apply elem_of_nil in Hf.
Qed.

(** X8. [export_chat_session] writes two files and no other: the markdown
    document and, at another path, its HTML page. *)
Theorem chat_session_writes_two_documents
    (session : ChatSession) (workspace : Workspace) (workspace_name output_dir : string)
    (w : world) (d : WorkspaceData) :
  let markdown_content :=
    convert_cursor_session_to_markdown session (workspaceInfo workspace) in
  let md_path :=
    document_path output_dir "markdown" workspace_name (chat_filename session +:+ ".md") in
  let html_path :=
    document_path output_dir "html" workspace_name (chat_filename session +:+ ".html") in
  let w' := (export_chat_session session workspace workspace_name output_dir (w, d)).1 in
  md_path ≠ html_path
  ∧ files w' !! md_path = Some markdown_content
  ∧ files w' !! html_path = Some (convert_to_html markdown_content)
  ∧ ∀ p, p ≠ md_path → p ≠ html_path → files w' !! p = files w !! p.
Proof.
  intros markdown_content md_path html_path w'.
  assert (md_path ≠ html_path) as Hne.
  { apply documents_differ; (done || (simpl; lia)). }
  split; [exact Hne|]. subst w'. rewrite export_chat_session_run. cbn [fst].
  apply two_documents_world. exact Hne.
Qed.

(** X9. [export_editing_session] writes, for a session with a history, two
    files and no other: the markdown document and, at another path, its HTML
    page; it leaves the world as it is for a session without a history. *)
Theorem editing_session_writes_two_documents
    (editing_session : EditingSession) (workspace : Workspace)
    (workspace_name output_dir : string) (w : world) (d : WorkspaceData) :
  let markdown_content :=
    convert_cursor_editing_session_to_markdown editing_session (workspaceInfo workspace) in
  let md_path :=
    document_path output_dir "markdown" workspace_name
      (editing_filename editing_session +:+ ".md") in
  let html_path :=
    document_path output_dir "html" workspace_name
      (editing_filename editing_session +:+ ".html") in
  let w' :=
    (export_editing_session editing_session workspace workspace_name output_dir (w, d)).1 in
  if has_history editing_session then
    md_path ≠ html_path
    ∧ files w' !! md_path = Some markdown_content
    ∧ files w' !! html_path = Some (convert_to_html markdown_content)
    ∧ ∀ p, p ≠ md_path → p ≠ html_path → files w' !! p = files w !! p
  else w' = w.
Proof.
  intros markdown_content md_path html_path w'. subst w'.
  rewrite export_editing_session_run. cbn [fst]. unfold editing_session_effects.
  destruct (has_history editing_session); [|done].
  assert (md_path ≠ html_path) as Hne.
  { apply documents_differ; (done || (simpl; lia)). }
  split; [exact Hne|]. apply two_documents_world. exact Hne.
Qed.

(** X10. After [export_all_workspaces] every chat session of the history has
    a markdown file and an HTML file at the paths of its name, so has every
    editing session with a history, and every workspace whose summary is not
    empty has its JSON file. *)
Theorem every_session_has_its_documents
    (chat_history : list Workspace) (output_dir : string) (w : world) :
  let w' := (export_all_workspaces chat_history output_dir w).1 in
  let document (format_name workspace_name filename : string) :=
    is_Some (files w' !! document_path output_dir format_name workspace_name filename) in
  Forall (λ workspace,
            let name := workspace_name_of workspace in
            Forall (λ session,
                      document "markdown" name (chat_filename session +:+ ".md")
                      ∧ document "html" name (chat_filename session +:+ ".html"))
              (get (chatSessions workspace) [])
            ∧ Forall (λ editing_session,
                        has_history editing_session = true →
                        document "markdown" name (editing_filename editing_session +:+ ".md")
                        ∧ document "html" name
                            (editing_filename editing_session +:+ ".html"))
                (get (editingSessions workspace) [])
            ∧ (chats (summary_of workspace) ≠ []
               ∨ wd_editingSessions (summary_of workspace) ≠ [] →
               is_Some (files w' !! json_path_of workspace output_dir)))
    chat_history.
Proof.
  intros w' document. subst w' document. rewrite export_all_workspaces_run. cbn [fst].
  apply Forall_forall. intros workspace Hw. cbv zeta. split; [|split].
  - apply Forall_forall. intros session Hs.
    split; eapply files_run_elem, history_effects_workspace; try exact Hw;
      (eapply workspace_effects_chat; [exact Hs|]); unfold chat_session_effects; cbv zeta.
    + right. left.
    + do 3 right. left.
  - apply Forall_forall. intros editing_session Hs Hh.
    split; eapply files_run_elem, history_effects_workspace; try exact Hw;
      (eapply workspace_effects_editing; [exact Hs|]); unfold editing_session_effects;
      rewrite Hh; cbv zeta.
    + right. left.
    + do 3 right. left.
  - intros Hd. destruct (workspace_effects_json workspace output_dir Hd) as [effects Heq].
    eapply files_run_elem, history_effects_workspace; [exact Hw|].
    rewrite Heq. apply elem_of_app. right. left.
Qed.

(** X11. The JSON file is named after the workspace name alone: the summary of
    the last workspace of the history, when not empty, is what the file of
    every workspace of that name holds in the end. *)
Theorem last_workspace_of_a_name_keeps_the_summary
    (earlier : list Workspace) (workspace other : Workspace) (output_dir : string)
    (w : world) :
  workspace_name_of other = workspace_name_of workspace →
  chats (summary_of workspace) ≠ [] ∨ wd_editingSessions (summary_of workspace) ≠ [] →
  files (export_all_workspaces (earlier ++ [workspace]) output_dir w).1
    !! json_path_of other output_dir
  = Some (json_dumps (summary_of workspace)).
Proof.
  intros Hname Hd. rewrite export_all_workspaces_run. cbn [fst].
  assert (json_path_of other output_dir = json_path_of workspace output_dir) as ->.
  { unfold json_path_of. by rewrite Hname. }
  rewrite files_run. unfold history_effects. rewrite fmap_app, join_app.
  destruct (workspace_effects_json workspace output_dir Hd) as [effects Heq].
  cbn [fmap list_fmap mjoin list_join]. rewrite app_nil_r, Heq, !written_app. simpl.
  by rewrite decide_True.
Qed.

End WorldOfTheExporter.



(** ** The loader and the command line *)

(** A loop that appends what a partial function gives. *)
Lemma for_in_omap {A B} (f : A → option B) (xs : list A) (acc : list B) :
  for_in xs (λ x acc, match f x with Some y => acc ++ [y] | None => acc end) acc
  = acc ++ omap f xs.
Proof.
  revert acc. induction xs as [|x xs IH]; intros acc; [by rewrite app_nil_r|].
  rewrite for_in_cons, IH. simpl. destruct (f x); [by rewrite <- app_assoc | done].
Qed.



Lemma load_chat_history_omap (entries : list StorageEntry) :
  load_chat_history_from_directory (StorageDirectory entries)
  = inr (omap kept_workspace entries).
Proof.
  unfold load_chat_history_from_directory. f_equal.
  rewrite <- (app_nil_l (omap kept_workspace entries)), <- for_in_omap.
  apply for_in_ext. intros entry acc. unfold kept_workspace.
  by destruct (entry_is_dir entry && negb (String.eqb (entry_name entry) "images")).
Qed.

Lemma Forall_filter_all {A} (p : A → bool) (xs : list A) :
  Forall (λ x, p x = true) xs → List.filter p xs = xs.
Proof. induction 1 as [|x xs Hx Hxs IH]; simpl; [done|]. by rewrite Hx, IH. Qed.

(** A workspace the loader returns has a summary that is not empty. *)
Lemma load_workspace_data_summary (workspace_dir : WorkspaceDir) (workspace : Workspace) :
  load_workspace_data workspace_dir = Some workspace →
  chats (summary_of workspace) ≠ [] ∨ wd_editingSessions (summary_of workspace) ≠ [].
Proof.
  unfold load_workspace_data.
  destruct (workspace_json workspace_dir) as [[workspace_info|e]|]; [|done..]. cbv zeta.
  set (chat_sessions := match chatSessions_dir workspace_dir with
                        | Some session_files => load_chat_sessions session_files
                        | None => []
                        end).
  set (editing_sessions := match chatEditingSessions_dir workspace_dir with
                           | Some session_dirs => load_editing_sessions session_dirs
                           | None => []
                           end).
  assert (Forall (λ s, has_history s = true) editing_sessions) as Hes.
  { subst editing_sessions. destruct (chatEditingSessions_dir workspace_dir); [|done].
    apply load_editing_sessions_spec. }
  destruct (bool_decide (chat_sessions ≠ []) || bool_decide (editing_sessions ≠ [])) eqn:Hne;
    [|done].
  intros [= <-]. unfold summary_of. simpl. rewrite (Forall_filter_all _ _ Hes).
  apply orb_prop in Hne as [Hne|Hne]; apply bool_decide_eq_true in Hne;
    [left | right]; by intros ?%fmap_nil_inv.
Qed.

Lemma kept_workspace_summary (entries : list StorageEntry) :
  Forall (λ workspace,
            chats (summary_of workspace) ≠ []
            ∨ wd_editingSessions (summary_of workspace) ≠ [])
    (omap kept_workspace entries).
Proof.
  induction entries as [|entry entries IH]; simpl; [done|].
  destruct (kept_workspace entry) as [workspace|] eqn:Hk; [|done].
  constructor; [|done]. unfold kept_workspace in Hk.
  destruct (entry_is_dir entry && _); [|done]. by eapply load_workspace_data_summary.
Qed.


Section LoaderAndExporter.
Context `{Runtime}.

(** X13. The loader and the exporter together: no workspace loaded from a
    storage directory is skipped.  The export returns one summary per
    loaded workspace, none of them null, and after it the JSON file of every
    loaded workspace is there. *)
Theorem loaded_workspaces_are_exported
    (entries : list StorageEntry) (output_dir : string) (w : world) :
  match load_chat_history_from_directory (StorageDirectory entries) with
  | inr chat_history =>
      let res := export_all_workspaces chat_history output_dir w in
      res.2 = (λ workspace, Some (summary_of workspace)) <$> chat_history
      ∧ Forall (λ workspace, is_Some (files res.1 !! json_path_of workspace output_dir))
          chat_history
  | inl _ => False
  end.
Proof.
  rewrite load_chat_history_omap. cbv zeta. rewrite export_all_workspaces_run. cbn [fst snd].
  pose proof (kept_workspace_summary entries) as Hall.
  set (chat_history := omap kept_workspace entries) in *. split.
  - apply Forall_fmap_ext. eapply Forall_impl; [exact Hall|].
    intros workspace Hd. unfold result_of. by rewrite summary_has_sessions.
  - apply Forall_forall. intros workspace Hw.
    pose proof (proj1 (Forall_forall _ _) Hall workspace Hw) as Hd.
    destruct (workspace_effects_json workspace output_dir Hd) as [effects Heq].
    eapply files_run_elem, history_effects_workspace; [exact Hw|].
    rewrite Heq. apply elem_of_app. right. left.
Qed.


End LoaderAndExporter.

(** ** The documents, turn by turn and edit by edit *)

Example storage_directory_loaded :
  load_chat_history_from_directory (StorageDirectory Storage.entries)
  = inr [Storage.loaded_one].
Proof. reflexivity. Qed.

Lemma markdown_of_file_entry_block (file_entry : FileEntry) (md : string) :
  markdown_of_file_entry file_entry md = md +:+ file_entry_block file_entry.
Proof.
  unfold markdown_of_file_entry, file_entry_block. cbv zeta.
  destruct (PyStr.startswith _ _); [done | by rewrite append_nil_r].
Qed.

Lemma markdown_of_stop_block (stop : Stop) (md : string) :
  markdown_of_stop stop md = md +:+ stop_block stop.
Proof.
  unfold markdown_of_stop, stop_block.
  destruct (truthy_list (entries stop)) eqn:He.
  - rewrite <- for_in_append_join. apply for_in_ext. apply markdown_of_file_entry_block.
  - rewrite (truthy_list_false _ He). by rewrite append_nil_r.
Qed.

Lemma markdown_of_post_edit_block (edit : PostEdit) (md : string) :
  markdown_of_post_edit edit md = md +:+ post_edit_block edit.
Proof.
  unfold markdown_of_post_edit, post_edit_block. cbv zeta.
  destruct (PyStr.startswith _ _); [|by rewrite append_nil_r].
  destruct (truthy_list (originalToCurrentEdit edit)).
  - rewrite markdown_of_change_loop. by rewrite !append_assoc.
  - by rewrite append_nil_r.
Qed.

Lemma markdown_of_edit_entry_block (i : nat) (entry : EditEntry) (md : string) :
  markdown_of_edit_entry (i, entry) md = md +:+ edit_entry_block i entry.
Proof.
  unfold markdown_of_edit_entry, edit_entry_block, separator. cbv zeta.
  assert ((if truthy_list (stops entry)
           then for_in (get (stops entry) []) markdown_of_stop
                  (md +:+ "### Edit " +:+ PyStr.of_int (Z.of_nat i + 1) +:+ PyStr.nl +:+ PyStr.nl)
           else md +:+ "### Edit " +:+ PyStr.of_int (Z.of_nat i + 1) +:+ PyStr.nl +:+ PyStr.nl)
          = (md +:+ "### Edit " +:+ PyStr.of_int (Z.of_nat i + 1) +:+ PyStr.nl +:+ PyStr.nl)
            +:+ PyStr.join "" (stop_block <$> get (stops entry) [])) as ->.
  { destruct (truthy_list (stops entry)) eqn:Hs.
    - rewrite <- for_in_append_join. apply for_in_ext. apply markdown_of_stop_block.
    - rewrite (truthy_list_false _ Hs). by rewrite append_nil_r. }
  destruct (truthy_list (postEdit entry)).
  - rewrite (for_in_ext markdown_of_post_edit (λ edit md, md +:+ post_edit_block edit))
      by apply markdown_of_post_edit_block.
    rewrite for_in_append_join. by rewrite !append_assoc.
  - by rewrite !append_assoc.
Qed.

(** What a request adds to the conversation does not depend on what is
    there. *)
Lemma conversation_of_request_app (request : Request) (conversation : list ConversationEntry) :
  conversation_of_request request conversation
  = conversation ++ conversation_of_request request [].
Proof.
  unfold conversation_of_request.
  destruct (truthy_str (message_text request)), (truthy_list (response request));
    try case_bool_decide; simpl; rewrite ?app_nil_r, <- ?app_assoc; done.
Qed.

Lemma conversation_loop (requests : list Request) (conversation : list ConversationEntry) :
  for_in requests conversation_of_request conversation
  = conversation ++ mjoin ((λ request, conversation_of_request request []) <$> requests).
Proof.
  revert conversation. induction requests as [|request requests IH]; intros conversation.
  - simpl. by rewrite app_nil_r.
  - rewrite for_in_cons, IH, conversation_of_request_app. simpl. by rewrite <- app_assoc.
Qed.

(** The blocks of a request are the blocks of its recorded turns. *)
Lemma blocks_of_turns (request : Request) :
  user_block request +:+ cursor_block request
  = PyStr.join "" (entry_block <$> conversation_of_request request []).
Proof.
  unfold user_block, cursor_block, conversation_of_request, entry_block.
  destruct (truthy_str (message_text request)), (truthy_list (response request));
    try case_bool_decide; simpl; rewrite ?append_nil_r, ?append_assoc; done.
Qed.

Section DocumentLayout.
Context `{Runtime}.

(** X15. The document of an editing session: the workspace header, the
    title with the session id, then for each entry of the history, in order
    and numbered from 1, its heading, the files of its stops whose resource
    starts with [file://], its changes if it has a [postEdit], and a
    separator. *)
Theorem editing_document_layout (session : EditingSession) (workspace_info : WorkspaceInfo) :
  convert_cursor_editing_session_to_markdown session workspace_info
  = workspace_header workspace_info
    +:+ "## Chat Editing Session: " +:+ get (es_sessionId session) "Unknown"
    +:+ PyStr.nl +:+ PyStr.nl
    +:+ PyStr.join "" (imap edit_entry_block (get (linearHistory session) [])).
Proof.
  unfold convert_cursor_editing_session_to_markdown. cbv zeta.
  destruct (truthy_list (linearHistory session)) eqn:Hl.
  - rewrite (for_in_ext markdown_of_edit_entry
               (λ ie md, md +:+ edit_entry_block ie.1 ie.2)).
    2:{ intros [i entry] md. apply markdown_of_edit_entry_block. }
    rewrite for_in_append_join, fmap_imap. simpl. by rewrite !append_assoc.
  - rewrite (truthy_list_false _ Hl). simpl. by rewrite ?append_assoc, ?append_nil_r.
Qed.

(** X16. The document of a chat session and its record in the summary show
    the same turns: the conversation of the record is, request by request,
    what [export_chat_session] appends for the request, and the document
    holds for each request the blocks of these turns, each headed by its
    role, and a separator. *)
Theorem document_shows_the_recorded_turns
    (session : ChatSession) (workspace_info : WorkspaceInfo) :
  let turns := λ request, conversation_of_request request [] in
  conversation (chat_record session) = mjoin (turns <$> get (requests session) [])
  ∧ convert_cursor_session_to_markdown session workspace_info
    = workspace_header workspace_info
      +:+ (if truthy_timestamp (creationDate session)
           then "Created: " +:+ format_datetime (get (creationDate session) (TsStr ""))
                  +:+ PyStr.nl +:+ PyStr.nl
           else "")
      +:+ "## " +:+ chat_title session +:+ PyStr.nl +:+ PyStr.nl
      +:+ PyStr.join ""
            ((λ request,
                PyStr.join "" (entry_block <$> turns request) +:+ separator)
               <$> get (requests session) []).
Proof.
  intros turns. subst turns. split.
  - unfold chat_record. simpl. destruct (truthy_list (requests session)) eqn:Hrs.
    + by rewrite conversation_loop.
    + by rewrite (truthy_list_false _ Hrs).
  - unfold convert_cursor_session_to_markdown.
    destruct (truthy_list (requests session)) eqn:Hrs.
    + rewrite (for_in_ext markdown_of_request
                 (λ request md,
                    md +:+ (PyStr.join "" (entry_block <$> conversation_of_request request [])
                            +:+ separator))).
      2:{ intros request md.
          by rewrite markdown_of_request_blocks, <- blocks_of_turns, !append_assoc. }
      rewrite for_in_append_join.
      destruct (truthy_timestamp (creationDate session)); by rewrite !append_assoc.
    + rewrite (truthy_list_false _ Hrs). simpl. rewrite append_nil_r.
      destruct (truthy_timestamp (creationDate session)); by rewrite ?append_assoc.
Qed.

End DocumentLayout.

(** ** File names, for every time stamp *)

Lemma prefix_take (n : nat) (s : string) : String.prefix (PyStr.take n s) s = true.
Proof.
  revert n. induction s as [|c s IH]; intros [|n]; try done. simpl.
  destruct (ascii_dec c c); [apply IH | done].
Qed.

Lemma prefix_slice_to (k : Z) (s : string) : String.prefix (PyStr.slice_to k s) s = true.
Proof. unfold PyStr.slice_to. destruct (0 <=? k); apply prefix_take. Qed.

Lemma prefix_refl (s : string) : String.prefix s s = true.
Proof. induction s as [|c s IH]; [done|]. simpl. by destruct (ascii_dec c c). Qed.

(** No white space is left in a title. *)
Lemma sub_spaces_no_space (s : string) : no_space (PyRe.sub_spaces s) = true.
Proof.
  unfold no_space, PyRe.sub_spaces. generalize false.
  induction s as [|c s IH]; intros in_run; [done|]. simpl.
  destruct (PyRe.is_space c) eqn:Hc; [destruct in_run|]; simpl; rewrite ?Hc; apply IH.
Qed.

Lemma all_always (p : ascii → bool) (s : string) :
  (∀ c, p c = true) → PyStr.all p s = true.
Proof. intros Hp. induction s as [|c s IH]; [done|]. simpl. by rewrite Hp, IH. Qed.

(** No blank and no colon is left in a date part. *)
Lemma dashed_no_blank_no_colon (s : string) :
  no_blank_no_colon (PyStr.replace ":" "-" (PyStr.replace " " "-" s)) = true.
Proof.
  unfold no_blank_no_colon. rewrite !replace_char, !all_map. apply all_always.
  by intros [[] [] [] [] [] [] [] []].
Qed.

Section FileNames.
Context `{Runtime}.

(** A name is its date part, two dashes and a part of the cleaned title. *)
Lemma safe_filename_title (timestamp : timestamp) (title : string) :
  ∃ kept,
    get_safe_filename timestamp title
    = PyStr.replace ":" "-" (PyStr.replace " " "-" (format_datetime timestamp))
      +:+ "--" +:+ kept
    ∧ PyStr.all valid_char kept = true.
Proof.
  unfold get_safe_filename. cbv zeta.
  assert (PyStr.all valid_char (PyRe.sub_spaces (PyRe.sub_invalid title)) = true) as Hvalid.
  { apply sub_spaces_valid, sub_invalid_valid. }
  destruct (MAX_FILENAME_LENGTH <? _); eexists; (split; [reflexivity|]);
    [by apply all_slice_to | done].
Qed.

(** X17. The name [get_safe_filename] returns, for every time stamp and
    title: the date part (what [format_datetime] returns, blanks and colons
    replaced by dashes, never cut), two dashes, and a prefix of the cleaned
    title, which holds none of the nine refused characters and no white
    space.  The title is kept whole when the name has at most 160
    characters; the name has at most 160 characters whenever the date part
    has at most 156. *)
Theorem safe_filename_shape (timestamp : timestamp) (title : string) :
  let date_str := PyStr.replace ":" "-" (PyStr.replace " " "-" (format_datetime timestamp)) in
  let safe_title := PyRe.sub_spaces (PyRe.sub_invalid title) in
  ∃ kept,
    get_safe_filename timestamp title = date_str +:+ "--" +:+ kept
    ∧ String.prefix kept safe_title = true
    ∧ PyStr.all valid_char kept = true
    ∧ no_space kept = true
    ∧ no_blank_no_colon date_str = true
    ∧ (PyStr.len date_str + 2 + PyStr.len safe_title ≤ 160 → kept = safe_title)
    ∧ (PyStr.len date_str ≤ 156 → PyStr.len (get_safe_filename timestamp title) ≤ 160).
Proof.
  intros date_str safe_title.
  assert (PyStr.all valid_char safe_title = true) as Hvalid.
  { apply sub_spaces_valid, sub_invalid_valid. }
  pose proof (sub_spaces_no_space (PyRe.sub_invalid title)) as Hspace.
  fold safe_title in Hspace.
  unfold get_safe_filename. cbv zeta. fold date_str. fold safe_title.
  unfold MAX_FILENAME_LENGTH. rewrite !len_append.
  change (PyStr.len "--") with 2.
  destruct (160 <? PyStr.len date_str + (2 + PyStr.len safe_title)) eqn:Hlong.
  - apply Z.ltb_lt in Hlong.
    exists (PyStr.slice_to (160 - PyStr.len date_str - 4) safe_title).
    split; [done|]. split; [apply prefix_slice_to|].
    split; [by apply all_slice_to|]. split; [by apply all_slice_to|].
    split; [apply dashed_no_blank_no_colon|]. split; [lia|].
    intros Hdate. rewrite !len_append. change (PyStr.len "--") with 2.
    pose proof (len_slice_to (160 - PyStr.len date_str - 4) safe_title ltac:(lia)). lia.
  - apply Z.ltb_ge in Hlong. exists safe_title.
    split; [done|]. split; [apply prefix_refl|]. split; [done|]. split; [done|].
    split; [apply dashed_no_blank_no_colon|]. split; [done|].
    intros _. rewrite !len_append. change (PyStr.len "--") with 2. lia.
Qed.

(** X18. The JSON file of a workspace lies in the [json] directory itself,
    under the workspace name followed by [.json]: the name
    [export_workspace] gives a workspace holds no slash. *)
Theorem summary_lies_in_the_json_directory (workspace : Workspace) (output_dir : string) :
  no_slash (workspace_name_of workspace) = true
  ∧ PyPath.parent (json_path_of workspace output_dir) = PyPath.Path output_dir // "json"
  ∧ PyPath.name (json_path_of workspace output_dir)
    = workspace_name_of workspace +:+ ".json".
Proof.
  split; [apply workspace_name_no_slash|].
  rewrite json_path_parent, parent_snoc, name_snoc.
  by destruct (PyPath.Path output_dir // "json").
Qed.

Lemma valid_no_slash (s : string) : PyStr.all valid_char s = true → no_slash s = true.
Proof. apply all_impl. by intros [[] [] [] [] [] [] [] []]. Qed.

(** [p / (f + e)] for a name and an extension without a slash: a file of
    the directory [p]. *)
Lemma joinpath_file (p : path) (f e : string) :
  no_slash f = true → no_slash e = true → (2 ≤ String.length e)%nat →
  PyPath.parent (p // (f +:+ e)) = p ∧ PyPath.name (p // (f +:+ e)) = f +:+ e.
Proof.
  intros Hf He Hlen. rewrite joinpath_name.
  - rewrite parent_snoc, name_snoc. by destruct p.
  - unfold no_slash. rewrite all_append. fold (no_slash f) (no_slash e). by rewrite Hf, He.
  - rewrite length_append. lia.
Qed.

(** The name of a dated session holds no slash. *)
Lemma dated_filename_no_slash (timestamp : timestamp) (title : string) (date : datetime) :
  parse_datetime timestamp = Returns date →
  datetime_ok date = true →
  no_slash (get_safe_filename timestamp title) = true.
Proof.
  intros Hdate Hok. apply valid_no_slash.
  destruct (safe_filename_title timestamp title) as (kept & -> & Hkept).
  rewrite (format_datetime_of_date _ _ Hdate).
  destruct (dashed_date_shape date Hok) as [_ Hchars].
  rewrite !all_append, Hkept, andb_true_r.
  revert Hchars. apply all_impl, date_char_valid.
Qed.

(** X19. The documents of a chat session whose creation date gives a date
    (a whole number in the range of [datetime], or a text the parser reads,
    with fields in range) lie in the directories of the workspace,
    [markdown/<workspace>] and [html/<workspace>] of the output directory,
    under the name [get_safe_filename] gives, followed by [.md] and
    [.html]. *)
Theorem dated_documents_lie_in_the_workspace_directories
    (session : ChatSession) (workspace : Workspace) (output_dir : string) (date : datetime) :
  parse_datetime (get (creationDate session) (TsStr "")) = Returns date →
  datetime_ok date = true →
  let name := workspace_name_of workspace in
  let md_path := document_path output_dir "markdown" name (chat_filename session +:+ ".md") in
  let html_path := document_path output_dir "html" name (chat_filename session +:+ ".html") in
  PyPath.parent md_path = PyPath.Path output_dir // "markdown" // name
  ∧ PyPath.name md_path = chat_filename session +:+ ".md"
  ∧ PyPath.parent html_path = PyPath.Path output_dir // "html" // name
  ∧ PyPath.name html_path = chat_filename session +:+ ".html".
Proof.
  intros Hdate Hok name md_path html_path.
  pose proof (dated_filename_no_slash _ (chat_title session) _ Hdate Hok) as Hname.
  fold (chat_filename session) in Hname.
  destruct (joinpath_file (PyPath.Path output_dir // "markdown" // name)
              (chat_filename session) ".md" Hname eq_refl ltac:(simpl; lia)) as [Hp1 Hn1].
  destruct (joinpath_file (PyPath.Path output_dir // "html" // name)
              (chat_filename session) ".html" Hname eq_refl ltac:(simpl; lia)) as [Hp2 Hn2].
  done.
Qed.

(** X20. A whole number between 1e7 and 1e13, read as seconds up to 1e10
    and as milliseconds above, always gives a date, in a zone less than a day
    away from UTC: [format_datetime] does not fall back, and returns nineteen
    characters, digits, dashes, a blank and colons. *)
Theorem whole_number_timestamps_give_dates (n : Z) :
  (∀ t, -86400 < utcoffset t < 86400) →
  10000000 ≤ n ≤ 10000000000000 →
  ∃ date,
    parse_datetime (TsInt n) = Returns date
    ∧ format_datetime (TsInt n) = PyDatetime.strftime date
    ∧ String.length (format_datetime (TsInt n)) = 19%nat
    ∧ PyStr.all stamp_char (format_datetime (TsInt n)) = true.
Proof.
  intros Hoff Hn.
  assert (∃ date, parse_datetime (TsInt n) = Returns date) as [date Hdate].
  { simpl. apply fromtimestamp_returns; [done|].
    destruct (10000000000 <? n) eqn:Hms; [|apply Z.ltb_ge in Hms; lia].
    apply Z.ltb_lt in Hms. Z.div_mod_to_equations. lia. }
  exists date. split; [done|]. rewrite (format_datetime_of_date _ _ Hdate).
  split; [done|]. apply strftime_shape. simpl in Hdate. by eapply fromtimestamp_ok.
Qed.

End FileNames.

(** X19, on a session dated 2024-01-15. *)
Lemma dated_documents_lie_in_the_workspace_directories_witness :
  let md_path :=
    document_path "out" "markdown" "proj"
      (@chat_filename utc_runtime Sample.session_hi +:+ ".md") in
  let html_path :=
    document_path "out" "html" "proj"
      (@chat_filename utc_runtime Sample.session_hi +:+ ".html") in
  PyPath.parent md_path = (false, ["out"; "markdown"; "proj"])
  ∧ PyPath.name md_path = "2024-01-15-10-10-00--Chat-Session-s1.md"
  ∧ PyPath.parent html_path = (false, ["out"; "html"; "proj"])
  ∧ PyPath.name html_path = "2024-01-15-10-10-00--Chat-Session-s1.html".
Proof.
  exact (@dated_documents_lie_in_the_workspace_directories utc_runtime Sample.session_hi
           Sample.workspace_hi "out" (mk_datetime 2024 1 15 10 10 0) eq_refl eq_refl).
Defined.

(** X20, on 2024-01-15 10:10:00 UTC in milliseconds. *)
Lemma whole_number_timestamps_give_dates_witness :
  ∃ date,
    @parse_datetime utc_runtime (TsInt 1705313400123) = Returns date
    ∧ @format_datetime utc_runtime (TsInt 1705313400123) = PyDatetime.strftime date
    ∧ String.length (@format_datetime utc_runtime (TsInt 1705313400123)) = 19%nat
    ∧ PyStr.all stamp_char (@format_datetime utc_runtime (TsInt 1705313400123)) = true.
Proof.
  apply (@whole_number_timestamps_give_dates utc_runtime 1705313400123);
    [intros t; simpl; lia | lia].
Defined.

(** ** The exporter on sample inputs *)

(** X11, on two workspaces whose folders are [/a/proj] and [/b/proj]: one
    JSON file, [json/proj.json], which holds the summary of the second. *)
Lemma last_workspace_of_a_name_keeps_the_summary_witness :
  json_path_of Storage.workspace_a "out" = (false, ["out"; "json"; "proj.json"])
  ∧ summary_of Storage.workspace_a ≠ summary_of Storage.workspace_b
  ∧ files (@export_all_workspaces utc_runtime ([Storage.workspace_a] ++ [Storage.workspace_b])
             "out" empty_world).1
      !! json_path_of Storage.workspace_a "out"
    = Some (@json_dumps utc_runtime (summary_of Storage.workspace_b)).
Proof.
  split; [reflexivity|]. split; [discriminate|].
  exact (@last_workspace_of_a_name_keeps_the_summary utc_runtime [Storage.workspace_a]
           Storage.workspace_b Storage.workspace_a "out" empty_world eq_refl
           (or_introl (λ Heq, eq_ind (chats (summary_of Storage.workspace_b))
                                (λ l, match l with [] => False | _ => True end)
                                I [] Heq))).
Defined.

(** [export_workspace] on its own, in an empty world: the summary is written
    to [out/json], a directory the function does not make.  The directory is
    made by [create_export_directories], which [export_all_workspaces] calls
    first. *)
Example export_workspace_needs_the_json_directory :
  let w' := (@export_workspace utc_runtime Sample.workspace_hi "out" empty_world).1 in
  is_Some (files w' !! (false, ["out"; "json"; "proj.json"]))
  ∧ bool_decide ((false, ["out"; "json"]) ∈ dirs w') = false
  ∧ bool_decide
      ((false, ["out"; "json"])
       ∈ dirs (@export_all_workspaces utc_runtime [Sample.workspace_hi] "out" empty_world).1)
    = true.
Proof. split; [|split]; vm_compute; [by eexists | reflexivity..]. Qed.

(** ** What the files hold *)



Section Contents.
Context `{Runtime}.

(** X21. The documents of an editing session whose id holds no slash lie in
    the directories of the workspace, under the name [editing-session-]
    followed by the id, and [.md] or [.html]. *)
Theorem editing_documents_lie_in_the_workspace_directories
    (editing_session : EditingSession) (workspace : Workspace) (output_dir : string) :
  no_slash (get (es_sessionId editing_session) "Unknown") = true →
  let name := workspace_name_of workspace in
  let filename := "editing-session-" +:+ get (es_sessionId editing_session) "Unknown" in
  let md_path := document_path output_dir "markdown" name (filename +:+ ".md") in
  let html_path := document_path output_dir "html" name (filename +:+ ".html") in
  editing_filename editing_session = filename
  ∧ PyPath.parent md_path = PyPath.Path output_dir // "markdown" // name
  ∧ PyPath.name md_path = filename +:+ ".md"
  ∧ PyPath.parent html_path = PyPath.Path output_dir // "html" // name
  ∧ PyPath.name html_path = filename +:+ ".html".
Proof.
  intros Hid name filename md_path html_path.
  assert (no_slash filename = true) as Hname.
  { subst filename. unfold no_slash. rewrite all_append.
    fold (no_slash (get (es_sessionId editing_session) "Unknown")). by rewrite Hid. }
  destruct (joinpath_file (PyPath.Path output_dir // "markdown" // name)
              filename ".md" Hname eq_refl ltac:(simpl; lia)) as [Hp1 Hn1].
  destruct (joinpath_file (PyPath.Path output_dir // "html" // name)
              filename ".html" Hname eq_refl ltac:(simpl; lia)) as [Hp2 Hn2].
  done.
Qed.


End Contents.

(** X21, on an editing session of id [e2]. *)
Lemma editing_documents_lie_in_the_workspace_directories_witness :
  let md_path := document_path "out" "markdown" "proj" "editing-session-e2.md" in
  let html_path := document_path "out" "html" "proj" "editing-session-e2.html" in
  editing_filename Sample.editing_one = "editing-session-e2"
  ∧ PyPath.parent md_path = (false, ["out"; "markdown"; "proj"])
  ∧ PyPath.name md_path = "editing-session-e2.md"
  ∧ PyPath.parent html_path = (false, ["out"; "html"; "proj"])
  ∧ PyPath.name html_path = "editing-session-e2.html".
Proof.
  exact (@editing_documents_lie_in_the_workspace_directories Sample.editing_one
           Sample.workspace_hi "out" eq_refl).
Defined.

